(** * Random operands of the tensor layer: [uniform] and [weibull]

    A shallow embedding of [mars/tensor/expressions/random/uniform.py] and
    [mars/tensor/expressions/random/weibull.py].

    Python values are a small universe [pyobj]; keyword dictionaries are
    finite maps from strings; NumPy is an interface ([NumPy]) with one
    reference implementation ([numpy_ref]); everything that can raise
    returns a [result]; everything that touches NumPy generators runs in
    the state-and-exception monad [M] over a [World] that holds the
    generator objects by reference. *)

From Stdlib Require Import ZArith QArith.
From stdpp Require Import base option list gmap strings numbers.

Local Open Scope string_scope.
Local Open Scope list_scope.

(** ** Python values *)

(** Element types, as [numpy.dtype] instances. *)
Inductive dtype : Type :=
| Bool8 | Int32 | Int64 | Float16 | Float32 | Float64.

#[global] Instance dtype_eq_dec : EqDecision dtype.
Proof. solve_decision. Defined.

(** The values that reach the two functions: [None], booleans, integers,
    floats (their real value), strings, dtype objects, sequences (lists
    and tuples, nested at will) and lazy tensors, of which only the
    declared shape and dtype exist before execution. *)
#[warnings="-register-all"]
Inductive pyobj : Type :=
| PyNone
| PyBool (b : bool)
| PyInt (z : Z)
| PyFloat (q : Q)
| PyStr (s : string)
| PyDType (d : dtype)
| PySeq (xs : list pyobj)
| PyTensor (shape : list nat) (d : dtype).

(** [x is None] *)
Definition is_None (v : pyobj) : bool :=
  match v with PyNone => true | _ => false end.

(** ** Exceptions and results *)

Inductive error : Type :=
| TypeConversionError   (* a parameter is not a numeric array-like *)
| InvalidShapeError     (* malformed size *)
| ParameterDomainError  (* a distribution parameter outside its domain *)
| BroadcastShapeError   (* shapes that do not broadcast *)
| TypeError             (* Python's own: a keyword given twice, a bad dtype *)
| ReferenceError.       (* a generator reference that is not in the store *)

#[global] Instance error_eq_dec : EqDecision error.
Proof. solve_decision. Defined.

Inductive result (A : Type) : Type :=
| Ok (a : A)
| Raise (e : error).
Arguments Ok {A} a.
Arguments Raise {A} e.

#[global] Instance result_ret : MRet result := fun _ a => Ok a.
#[global] Instance result_bind : MBind result := fun _ _ f r =>
  match r with Ok a => f a | Raise e => Raise e end.
#[global] Instance result_fmap : FMap result := fun _ _ f r =>
  match r with Ok a => Ok (f a) | Raise e => Raise e end.

Definition is_Ok {A} (r : result A) : Prop := exists a, r = Ok a.

(** ** Shapes and broadcasting *)

Abbreviation shape := (list nat).

(** NumPy's rule on two shapes aligned at their last axis, here on the
    reversed shapes: equal extents agree, an extent 1 gives way, anything
    else is an error. *)
Fixpoint broadcast_rev (s t : shape) : result shape :=
  match s, t with
  | [], _ => Ok t
  | _, [] => Ok s
  | a :: s', b :: t' =>
      r ← broadcast_rev s' t';
      if decide (a = b) then Ok (a :: r)
      else if decide (a = 1) then Ok (b :: r)
      else if decide (b = 1) then Ok (a :: r)
      else Raise BroadcastShapeError
  end.

Definition broadcast2 (s t : shape) : result shape :=
  @rev nat <$> broadcast_rev (rev s) (rev t).

Fixpoint broadcast_shape (shapes : list shape) : result shape :=
  match shapes with
  | [] => Ok []
  | s :: rest => r ← broadcast_shape rest; broadcast2 s r
  end.

(** ** Array-likes *)

(** What NumPy sees of an array argument: shape, element type and, when
    the data exist, the elements in row-major order. *)
Record ndarray : Type := mk_ndarray {
  nd_shape : shape;
  nd_dtype : dtype;
  nd_data : option (list Q)
}.

(** Shape of a nested sequence; [None] when it is ragged or holds
    something that is not a number. *)
Fixpoint seq_shape (v : pyobj) : option shape :=
  match v with
  | PyBool _ | PyInt _ | PyFloat _ => Some []
  | PySeq xs =>
      match xs with
      | [] => Some [0]
      | x :: rest =>
          match seq_shape x with
          | Some s =>
              if (fix same (l : list pyobj) : bool :=
                    match l with
                    | [] => true
                    | y :: l' =>
                        match seq_shape y with
                        | Some s' => bool_decide (s' = s) && same l'
                        | None => false
                        end
                    end) rest
              then Some (S (length rest) :: s) else None
          | None => None
          end
      end
  | _ => None
  end.

(** The numbers of a nested sequence with the element type each one has
    on its own. *)
Fixpoint leaves (v : pyobj) : option (list (dtype * Q)) :=
  match v with
  | PyBool b => Some [(Bool8, if b then 1%Q else 0%Q)]
  | PyInt z => Some [(Int64, inject_Z z)]
  | PyFloat q => Some [(Float64, q)]
  | PySeq xs =>
      (fix go (l : list pyobj) : option (list (dtype * Q)) :=
         match l with
         | [] => Some []
         | x :: l' =>
             match leaves x, go l' with
             | Some a, Some b => Some (a ++ b)
             | _, _ => None
             end
         end) xs
  | _ => None
  end.

(** Type promotion among the element types Python numbers map to
    ([bool], [int64], [float64]): the wider one. *)
Definition dtype_rank (d : dtype) : nat :=
  match d with
  | Bool8 => 0 | Int32 => 1 | Int64 => 2
  | Float16 => 3 | Float32 => 4 | Float64 => 5
  end.

Definition promote (d e : dtype) : dtype :=
  if decide (dtype_rank d <= dtype_rank e) then e else d.

(** Element type of a list of numbers: [float64] when empty. *)
Definition common_dtype (l : list (dtype * Q)) : dtype :=
  match l with
  | [] => Float64
  | (d, _) :: rest => foldr (fun p acc => promote p.1 acc) d rest
  end.

(** ** The parameter normalizer *)

(** Modelled from the spec: [handle_array] of [random/core.py] is not among
    the sources. Section 4.1: a scalar, nested sequence or array-like
    becomes a shape-preserving array-like view; a lazy tensor is passed
    through with its declared shape and dtype and no data; anything that is
    not a numeric array-like raises [TypeConversionError]. *)
Definition handle_array (v : pyobj) : result ndarray :=
  match v with
  | PyTensor s d => Ok (mk_ndarray s d None)
  | _ =>
      match seq_shape v, leaves v with
      | Some s, Some l => Ok (mk_ndarray s (common_dtype l) (Some (l.*2)))
      | _, _ => Raise TypeConversionError
      end
  end.

(** ** NumPy *)

(** The part of NumPy the two functions call. [gen] is the internal state
    of a [numpy.random.RandomState]; [np_seed] builds the state of
    [RandomState()] from operating-system entropy; [np_dtype] is
    [numpy.dtype(obj)], which returns a dtype instance as it is;
    [np_uniform] and [np_weibull] are the eager sampling methods, given the
    generator state, the parameters and [size], and return the array drawn
    and the state the generator is left in. *)
Class NumPy : Type := {
  gen : Type;
  np_seed : N -> gen;
  np_dtype : pyobj -> result dtype;
  np_dtype_instance : forall d, np_dtype (PyDType d) = Ok d;
  np_uniform : gen -> ndarray -> ndarray -> shape -> result (ndarray * gen);
  np_weibull : gen -> ndarray -> shape -> result (ndarray * gen)
}.

(** Object references. *)
Abbreviation loc := positive.

Section Program.
Context `{np : NumPy}.

(** ** The world: generator objects and the entropy source *)

Record World : Type := mk_World {
  w_gens : gmap loc gen;    (* the numpy RandomState objects alive *)
  w_urandom : nat -> N;     (* what the operating system will hand out *)
  w_reads : nat             (* how much of it has been read *)
}.

(** State and exception: a raise keeps the state reached so far. *)
Definition M (A : Type) : Type := World -> result A * World.

#[global] Instance M_ret : MRet M := fun _ a w => (Ok a, w).
#[global] Instance M_bind : MBind M := fun _ _ f m w =>
  match m w with
  | (Ok a, w') => f a w'
  | (Raise e, w') => (Raise e, w')
  end.

Definition lift {A} (r : result A) : M A := fun w => (r, w).

(** [np.random.RandomState()]: a new generator object, seeded from the
    entropy source, at a reference no live object has. *)
Definition np_random_RandomState : M loc := fun w =>
  let l := fresh (dom (w_gens w)) in
  (Ok l, mk_World (<[l := np_seed (w_urandom w (w_reads w))]> (w_gens w))
                  (w_urandom w) (S (w_reads w))).

(** A sampling method called on the generator object at [l]: it draws from
    that object and leaves the advanced state in it. *)
Definition sample (l : loc) (draw : gen -> result (ndarray * gen)) : M ndarray :=
  fun w =>
    match w_gens w !! l with
    | None => (Raise ReferenceError, w)
    | Some g =>
        match draw g with
        | Ok (a, g') => (Ok a, mk_World (<[l := g']> (w_gens w)) (w_urandom w) (w_reads w))
        | Raise e => (Raise e, w)
        end
    end.

Definition RandomState_uniform (l : loc) (low high : ndarray) (size : shape) : M ndarray :=
  sample l (fun g => np_uniform g low high size).

Definition RandomState_weibull (l : loc) (a : ndarray) (size : shape) : M ndarray :=
  sample l (fun g => np_weibull g a size).

End Program.

(** ** The random state of the tensor layer *)

Module RandomState.

(** The caller's random state, as [uniform] and [weibull] use it (the
    class is in [random/core.py], not among the sources): [_state] refers
    to the NumPy generator the operand will draw from at execution time. *)
Record t : Type := mk { _state : loc }.

Definition dim (v : pyobj) : result nat :=
  match v with
  | PyInt z => if decide (0 <= z)%Z then Ok (Z.to_nat z) else Raise InvalidShapeError
  | _ => Raise InvalidShapeError
  end.

(** Modelled from the spec: [RandomState._handle_size] of [random/core.py]
    is not among the sources. Section 4.2: [None] defers the shape, a
    non-negative integer or a tuple of them is returned as a shape tuple,
    a negative or non-integer dimension raises [InvalidShapeError]. It
    takes the size alone and touches no state (section 6,
    [deriveCanonicalSize(userSize) -> shapeTuple]). *)
Definition _handle_size (size : pyobj) : result (option shape) :=
  match size with
  | PyNone => Ok None
  | PySeq xs => Some <$> mapM dim xs
  | _ => d ← dim size; Ok (Some [d])
  end.

End RandomState.

(** ** Operands and graph nodes *)

(** The two operand classes, by the [operands] class each derives from. *)
Inductive opclass : Type := Uniform | Weibull.

#[global] Instance opclass_eq_dec : EqDecision opclass.
Proof. solve_decision. Defined.

(** [_input_fields_] of [TensorUniform] and of [TensorWeibull]. *)
Definition _input_fields_ (c : opclass) : list string :=
  match c with
  | Uniform => ["_low"; "_high"]
  | Weibull => ["_a"]
  end.

(** An operand: the keyword fields its class hands to the base
    initializer. [_state] is a reference, shared with the random state it
    was read from; [_gpu] is the device flag the base initializer keeps. *)
Record Operand : Type := mk_Operand {
  op_class : opclass;
  _size : option shape;
  _state : loc;
  _dtype : option dtype;
  _gpu : pyobj;
  op_kw : gmap string pyobj
}.

(** Modelled from the spec: the gpu flag of the operand base class, which
    is not among the sources. Section 3: [gpuFlag] is a boolean device
    hint that defaults to false; so no value ([None]) is [False], and a
    value that is given is kept. *)
Definition gpu_flag (gpu : pyobj) : pyobj :=
  if is_None gpu then PyBool false else gpu.

(** Modelled from the spec: the operand base class ([operands.Uniform],
    [operands.Weibull] and their initializer) is not among the sources.
    Section 3 and 6: an operand is a value object with the fields shape,
    dtype, gpu flag, random-state reference; the initializer stores the
    keyword fields it is given, the gpu flag as a boolean that defaults to
    false. Python itself refuses a keyword that is both written out and in
    [**kw]. *)
Definition Operand__init__ (c : opclass) (size : option shape) (state : loc)
    (dtype : option dtype) (gpu : pyobj) (kw : gmap string pyobj) : result Operand :=
  if decide (kw !! "_size" = None /\ kw !! "_state" = None /\
             kw !! "_dtype" = None /\ kw !! "_gpu" = None)
  then Ok (mk_Operand c size state dtype (gpu_flag gpu) kw)
  else Raise TypeError.

(** A parameter of a node: a constant, or the n-th registered input. *)
Inductive binding : Type :=
| Constant (v : pyobj)
| InputRef (n : nat).

Record GraphNode : Type := mk_GraphNode {
  node_op : Operand;
  node_params : list (string * binding);
  node_inputs : list pyobj;
  node_shape : shape;
  node_chunks : pyobj
}.

Definition is_array_like (v : pyobj) : bool :=
  match v with
  | PySeq _ | PyTensor _ _ => true
  | _ => false
  end.

Definition declared_shape (v : pyobj) : result shape :=
  match v with
  | PyTensor s _ => Ok s
  | _ => match seq_shape v with
         | Some s => Ok s
         | None => Raise TypeConversionError
         end
  end.

Fixpoint bind_params (fields : list string) (params : list pyobj) (n : nat)
    : list (string * binding) :=
  match fields, params with
  | f :: fields', p :: params' =>
      if is_array_like p
      then (f, InputRef n) :: bind_params fields' params' (S n)
      else (f, Constant p) :: bind_params fields' params' n
  | _, _ => []
  end.

(** Modelled from the spec: [new_tensor] of [TensorRandomOperandMixin]
    ([random/core.py]) is not among the sources. Section 4.5: every
    array-like parameter is registered once as an input and every scalar is
    embedded as a constant; the advertised shape is the operand's shape
    when it is resolved and otherwise the broadcast of the shapes of the
    array-like inputs, [BroadcastShapeError] when they do not broadcast;
    the chunk hint is attached; nothing is computed. The second argument is
    the shape the caller advertises, [None] at both call sites. *)
Definition new_tensor (op : Operand) (inputs : list pyobj) (shape_arg : pyobj)
    (raw_chunks : pyobj) : result GraphNode :=
  let arrays := List.filter is_array_like inputs in
  sh ← match _size op with
       | Some s => Ok s
       | None => shapes ← mapM declared_shape arrays; broadcast_shape shapes
       end;
  Ok (mk_GraphNode op (bind_params (_input_fields_ (op_class op)) inputs 0)
                   arrays sh raw_chunks).

Section Distributions.
Context `{np : NumPy}.

(** *** [uniform.py] *)

(** [TensorUniform.__init__(self, size, state, dtype, gpu, **kw)] *)
Definition TensorUniform__init__ (size : option shape) (state : loc)
    (dtype gpu : pyobj) (kw : gmap string pyobj) : result Operand :=
  dtype' ← (if is_None dtype then Ok None else Some <$> np_dtype dtype);
  Operand__init__ Uniform size state dtype' gpu kw.

(** The call [TensorUniform(size=..., state=..., gpu=..., **kw)]: [dtype]
    is bound from [kw] when it is there and defaults to [None]; a name
    written out and also in [kw] is a [TypeError], and so is [self], which
    the call itself binds to the new object. *)
Definition TensorUniform (size : option shape) (state : loc) (gpu : pyobj)
    (kw : gmap string pyobj) : result Operand :=
  if decide (kw !! "self" = None /\
             kw !! "size" = None /\ kw !! "state" = None /\ kw !! "gpu" = None)
  then TensorUniform__init__ size state (default PyNone (kw !! "dtype")) gpu
                             (delete "dtype" kw)
  else Raise TypeError.

(** [TensorUniform.__call__(self, low, high, chunks)] *)
Definition TensorUniform__call__ (self : Operand) (low high chunks : pyobj)
    : result GraphNode :=
  new_tensor self [low; high] PyNone chunks.

(** [uniform(random_state, low=0.0, high=1.0, size=None, chunks=None,
    gpu=None, **kw)]. An optional argument the caller leaves out is [None]
    here and takes the default of the signature. *)
Definition uniform (random_state : RandomState.t)
    (low high size chunks gpu : option pyobj) (kw : gmap string pyobj) : M GraphNode :=
  let low := default (PyFloat 0) low in
  let high := default (PyFloat 1) high in
  let size := default PyNone size in
  let chunks := default PyNone chunks in
  let gpu := default PyNone gpu in
  kw ← (if decide (kw !! "dtype" = None) then
          g ← np_random_RandomState;
          lo ← lift (handle_array low);
          hi ← lift (handle_array high);
          a ← RandomState_uniform g lo hi [0];
          mret (<["dtype" := PyDType (nd_dtype a)]> kw)
        else mret kw);
  size ← lift (RandomState._handle_size size);
  op ← lift (TensorUniform size (RandomState._state random_state) gpu kw);
  lift (TensorUniform__call__ op low high chunks).

(** *** [weibull.py] *)

(** [TensorWeibull.__init__(self, size, state, dtype, gpu, **kw)] *)
Definition TensorWeibull__init__ (size : option shape) (state : loc)
    (dtype gpu : pyobj) (kw : gmap string pyobj) : result Operand :=
  dtype' ← (if is_None dtype then Ok None else Some <$> np_dtype dtype);
  Operand__init__ Weibull size state dtype' gpu kw.

(** The call [TensorWeibull(size=..., state=..., gpu=..., **kw)], with the
    same binding of keywords. *)
Definition TensorWeibull (size : option shape) (state : loc) (gpu : pyobj)
    (kw : gmap string pyobj) : result Operand :=
  if decide (kw !! "self" = None /\
             kw !! "size" = None /\ kw !! "state" = None /\ kw !! "gpu" = None)
  then TensorWeibull__init__ size state (default PyNone (kw !! "dtype")) gpu
                             (delete "dtype" kw)
  else Raise TypeError.

(** [TensorWeibull.__call__(self, a, chunks)] *)
Definition TensorWeibull__call__ (self : Operand) (a chunks : pyobj)
    : result GraphNode :=
  new_tensor self [a] PyNone chunks.

(** [weibull(random_state, a, size=None, chunks=None, gpu=None, **kw)] *)
Definition weibull (random_state : RandomState.t) (a : pyobj)
    (size chunks gpu : option pyobj) (kw : gmap string pyobj) : M GraphNode :=
  let size := default PyNone size in
  let chunks := default PyNone chunks in
  let gpu := default PyNone gpu in
  kw ← (if decide (kw !! "dtype" = None) then
          g ← np_random_RandomState;
          an ← lift (handle_array a);
          r ← RandomState_weibull g an [0];
          mret (<["dtype" := PyDType (nd_dtype r)]> kw)
        else mret kw);
  size ← lift (RandomState._handle_size size);
  op ← lift (TensorWeibull size (RandomState._state random_state) gpu kw);
  lift (TensorWeibull__call__ op a chunks).

End Distributions.

(** ** A reference NumPy *)

(** Enough of NumPy to run the two functions: dtype names, the legacy
    samplers' checks and result type. A generator state is the number of
    values drawn since seeding; the elements drawn are not modelled. *)
Module NumPyRef.

Definition dtype_of_name (s : string) : result dtype :=
  if decide (s = "bool") then Ok Bool8
  else if decide (s = "int32" \/ s = "i4") then Ok Int32
  else if decide (s = "int64" \/ s = "i8") then Ok Int64
  else if decide (s = "float16" \/ s = "f2") then Ok Float16
  else if decide (s = "float32" \/ s = "f4") then Ok Float32
  else if decide (s = "float64" \/ s = "f8") then Ok Float64
  else Raise TypeError.

(** [numpy.dtype(obj)]: an instance is returned as it is, a name is
    looked up, [None] is [float64]. *)
Definition dtype_of (v : pyobj) : result dtype :=
  match v with
  | PyDType d => Ok d
  | PyStr s => dtype_of_name s
  | PyNone => Ok Float64
  | _ => Raise TypeError
  end.

Definition numel (s : shape) : nat := foldr Nat.mul 1 s.

(** With a [size], the parameters must broadcast to exactly that shape. *)
Definition check_size (params : list shape) (size : shape) : result unit :=
  match broadcast_shape (params ++ [size]) with
  | Ok s => if decide (s = size) then Ok tt else Raise BroadcastShapeError
  | Raise e => Raise e
  end.

Definition drawn (g : N) (size : shape) : ndarray * N :=
  (mk_ndarray size Float64 (if decide (numel size = 0) then Some [] else None),
   (g + N.of_nat (numel size))%N).

(** [RandomState.uniform(low, high, size)]: always [float64]. *)
Definition uniform (g : N) (low high : ndarray) (size : shape)
    : result (ndarray * N) :=
  _ ← check_size [nd_shape low; nd_shape high] size;
  Ok (drawn g size).

Definition negative (a : ndarray) : bool :=
  match nd_data a with
  | Some l => existsb (fun q => Qle_bool q 0 && negb (Qeq_bool q 0)) l
  | None => false
  end.

(** [RandomState.weibull(a, size)]: a negative [a] is refused, zero is
    not; always [float64]. *)
Definition weibull (g : N) (a : ndarray) (size : shape) : result (ndarray * N) :=
  if negative a then Raise ParameterDomainError
  else _ ← check_size [nd_shape a] size; Ok (drawn g size).

End NumPyRef.

#[global] Instance numpy_ref : NumPy := {|
  gen := N;
  np_seed := fun e => e;
  np_dtype := NumPyRef.dtype_of;
  np_dtype_instance := fun d => eq_refl;
  np_uniform := NumPyRef.uniform;
  np_weibull := NumPyRef.weibull
|}.

(** A world with one generator, the caller's, at reference 1. *)
Definition world0 : @World numpy_ref :=
  mk_World {[ 1%positive := 42%N ]} (fun n => N.of_nat (7 * n + 3)) 0.

Definition rs0 : RandomState.t := RandomState.mk 1.

(** ** The inputs of the scenarios *)

(** [[0,0]] and [[1,1,1]], and what NumPy sees of them. *)
Definition low_2 : pyobj := PySeq [PyInt 0; PyInt 0].
Definition high_3 : pyobj := PySeq [PyInt 1; PyInt 1; PyInt 1].
Definition low_2_array : ndarray := mk_ndarray [2] Int64 (Some [0; 0]%Q).
Definition high_3_array : ndarray := mk_ndarray [3] Int64 (Some [1; 1; 1]%Q).

(** [5.0], [-1.0] and an empty [float64] array, as NumPy sees them. *)
Definition five_array : ndarray := mk_ndarray [] Float64 (Some [5]%Q).
Definition minus_one_array : ndarray := mk_ndarray [] Float64 (Some [-1]%Q).
Definition empty_f8 : ndarray := mk_ndarray [0] Float64 (Some []).

(** The keywords [dtype='float64'] and [dtype=None]. *)
Definition kw_f8 : gmap string pyobj := {[ "dtype" := PyStr "float64" ]}.
Definition kw_None : gmap string pyobj := {[ "dtype" := PyNone ]}.

(** The dtype of the operand of the node a call returned. *)
Definition dtype_of_call {A : Type} (r : result GraphNode * A) : result (option dtype) :=
  (fun node => _dtype (node_op node)) <$> r.1.

(** The gpu field of the operand of the node a call returned. *)
Definition gpu_of_call {A : Type} (r : result GraphNode * A) : result pyobj :=
  (fun node => _gpu (node_op node)) <$> r.1.

(** A world in which other constructions have run: more generators, more
    entropy read. *)
Definition world1 : @World numpy_ref :=
  (uniform rs0 None None None None None ∅ world0).2.

(** ** Keywords the two modules write out *)

(** The names [uniform], [weibull] and the two initializers pass by keyword
    next to [**kw]: [size], [state], [gpu] to the class, and [_size],
    [_state], [_dtype], [_gpu] to the base initializer. *)
Definition written_out : list string :=
  ["size"; "state"; "gpu"; "_size"; "_state"; "_dtype"; "_gpu"].

(** All the names a keyword of the caller's may not have: those and
    [self], which a call of a class binds to the new object. *)
Definition bound_names : list string := "self" :: written_out.

(** The [dtype] field of an operand, as the value to pass for [dtype]. *)
Definition dtype_to_py (f : option dtype) : pyobj :=
  match f with
  | Some d => PyDType d
  | None => PyNone
  end.

(** Keywords with a dtype and a [state] of the caller's own; a dtype name
    NumPy does not know; a negative size. *)
Definition kw_state : gmap string pyobj :=
  <["state" := PyInt 7]> {[ "dtype" := PyStr "float64" ]}.
Definition kw_quaternion : gmap string pyobj := {[ "dtype" := PyStr "quaternion" ]}.
Definition kw_tag : gmap string pyobj :=
  <["tag" := PyStr "x"]> {[ "dtype" := PyStr "float32" ]}.
Definition size_minus_3 : pyobj := PyInt (-3).

(** Python objects have an identity: a node that is built is a new
    object, at a reference no object of the store has. *)
Definition new_object (r : result GraphNode) (h : gmap loc GraphNode)
    : result loc * gmap loc GraphNode :=
  match r with
  | Ok n => (Ok (fresh (dom h)), <[fresh (dom h) := n]> h)
  | Raise e => (Raise e, h)
  end.

(** Two nodes built one after the other: the two objects and the store
    they leave. *)
Definition two_objects (r1 r2 : result GraphNode) (h : gmap loc GraphNode)
    : result loc * result loc * gmap loc GraphNode :=
  let '(o1, h1) := new_object r1 h in
  let '(o2, h2) := new_object r2 h1 in
  (o1, o2, h2).

(** ** The two halves of a public function *)

Section Halves.
Context `{np : NumPy}.

(** What holds of the node and the world a call returns, when it returns. *)
Definition returns {A} (r : result A * World) (P : A -> World -> Prop) : Prop :=
  match r with
  | (Ok a, w') => P a w'
  | (Raise _, _) => True
  end.

(** The zero-size probe of [uniform]: the eager NumPy call on the
    normalized parameters with [size=(0,)], on a generator of its own. *)
Definition uniform_probe (low high : pyobj) : M ndarray :=
  g ← np_random_RandomState;
  lo ← lift (handle_array low);
  hi ← lift (handle_array high);
  RandomState_uniform g lo hi [0].

(** The zero-size probe of [weibull]. *)
Definition weibull_probe (a : pyobj) : M ndarray :=
  g ← np_random_RandomState;
  an ← lift (handle_array a);
  RandomState_weibull g an [0].

(** The last three lines of [uniform], once [kw] holds a dtype. *)
Definition uniform_build (random_state : RandomState.t)
    (low high size chunks gpu : pyobj) (kw : gmap string pyobj) : result GraphNode :=
  size ← RandomState._handle_size size;
  op ← TensorUniform size (RandomState._state random_state) gpu kw;
  TensorUniform__call__ op low high chunks.

(** The last three lines of [weibull]. *)
Definition weibull_build (random_state : RandomState.t)
    (a size chunks gpu : pyobj) (kw : gmap string pyobj) : result GraphNode :=
  size ← RandomState._handle_size size;
  op ← TensorWeibull size (RandomState._state random_state) gpu kw;
  TensorWeibull__call__ op a chunks.

(** How [__init__] turns the [dtype] argument into the [_dtype] field. *)
Definition dtype_field (v : pyobj) (f : option dtype) : Prop :=
  (v = PyNone /\ f = None) \/
  (v <> PyNone /\ exists d, np_dtype v = Ok d /\ f = Some d).

(** [TensorUniform(...)(low, high, chunks)]: an operand built from the
    arguments of its initializer and called at once. *)
Definition construct_uniform (size : option shape) (state : loc)
    (dtype gpu : pyobj) (kw : gmap string pyobj) (low high chunks : pyobj)
    : result GraphNode :=
  op ← TensorUniform__init__ size state dtype gpu kw;
  TensorUniform__call__ op low high chunks.

(** [TensorWeibull(...)(a, chunks)] *)
Definition construct_weibull (size : option shape) (state : loc)
    (dtype gpu : pyobj) (kw : gmap string pyobj) (a chunks : pyobj)
    : result GraphNode :=
  op ← TensorWeibull__init__ size state dtype gpu kw;
  TensorWeibull__call__ op a chunks.

(** Value equality of two nodes' operands: shape, dtype, gpu flag,
    distribution parameters and random-state reference. *)
Definition value_equal (n1 n2 : GraphNode) : Prop :=
  _size (node_op n1) = _size (node_op n2) /\
  _dtype (node_op n1) = _dtype (node_op n2) /\
  _gpu (node_op n1) = _gpu (node_op n2) /\
  node_params n1 = node_params n2 /\
  _state (node_op n1) = _state (node_op n2).

(** What one probe does to the world: one generator more, at a new
    reference, and one word of entropy read. *)
Definition one_probe (w w' : World) : Prop :=
  w_reads w' = S (w_reads w) /\
  w_urandom w' = w_urandom w /\
  dom (w_gens w') = {[fresh (dom (w_gens w))]} ∪ dom (w_gens w).

(** A construction run twice in a row: two different objects, holding
    value-equal nodes. *)
Definition built_twice (r : result GraphNode) : Prop :=
  forall h : gmap loc GraphNode,
    exists l1 l2 h2 n1 n2,
      two_objects r r h = (Ok l1, Ok l2, h2) /\
      l1 <> l2 /\
      h2 !! l1 = Some n1 /\ h2 !! l2 = Some n2 /\
      value_equal n1 n2.

(** Two constructions in either order: the object the first construction
    makes is not the same object in the two orders, and holds value-equal
    nodes in both. *)
Definition either_order (rA rB : result GraphNode) : Prop :=
  forall h : gmap loc GraphNode,
    exists lA lB h2 lB' lA' h2' n n',
      two_objects rA rB h = (Ok lA, Ok lB, h2) /\
      two_objects rB rA h = (Ok lB', Ok lA', h2') /\
      lA <> lA' /\
      h2 !! lA = Some n /\ h2' !! lA' = Some n' /\
      value_equal n n'.

End Halves.

(** * Properties *)

Section Properties.
Context `{np : NumPy}.

Ltac unfold_M := unfold mbind, M_bind, mret, M_ret, lift in *.

Lemma returns_impl {A} (r : result A * World) (P Q : A -> World -> Prop) :
  (forall a w', P a w' -> Q a w') -> returns r P -> returns r Q.
Proof. destruct r as [[a|e] w']; cbn; auto. Qed.

(** To show what holds of a returned node, start from what is known of it. *)
Ltac from_returns lem := eapply returns_impl; [|apply lem]; cbn beta.

Lemma uniform_explicit rs low high size chunks gpu kw (w : World) :
  kw !! "dtype" <> None ->
  uniform rs low high size chunks gpu kw w =
  (uniform_build rs (default (PyFloat 0) low) (default (PyFloat 1) high)
     (default PyNone size) (default PyNone chunks) (default PyNone gpu) kw, w).
Proof.
  intros Hk. unfold uniform, uniform_build.
  destruct (decide (kw !! "dtype" = None)) as [E|_]; [contradiction|].
  unfold_M. cbn.
  destruct (RandomState._handle_size _) as [sz|e]; cbn; [|reflexivity].
  destruct (TensorUniform _ _ _ _); reflexivity.
Qed.

Lemma uniform_probing rs low high size chunks gpu kw (w : World) :
  kw !! "dtype" = None ->
  uniform rs low high size chunks gpu kw w =
  match uniform_probe (default (PyFloat 0) low) (default (PyFloat 1) high) w with
  | (Ok arr, w') =>
      (uniform_build rs (default (PyFloat 0) low) (default (PyFloat 1) high)
         (default PyNone size) (default PyNone chunks) (default PyNone gpu)
         (<["dtype" := PyDType (nd_dtype arr)]> kw), w')
  | (Raise e, w') => (Raise e, w')
  end.
Proof.
  intros Hk. unfold uniform, uniform_build, uniform_probe.
  destruct (decide (kw !! "dtype" = None)) as [_|E]; [|contradiction].
  unfold_M. cbn.
  destruct (handle_array (default (PyFloat 0) low)) as [lo|e]; cbn; [|reflexivity].
  destruct (handle_array (default (PyFloat 1) high)) as [hi|e]; cbn; [|reflexivity].
  destruct (RandomState_uniform _ lo hi [0] _) as [[arr|e] w']; cbn; [|reflexivity].
  destruct (RandomState._handle_size _) as [sz|e]; cbn; [|reflexivity].
  destruct (TensorUniform _ _ _ _); reflexivity.
Qed.

Lemma weibull_explicit rs a size chunks gpu kw (w : World) :
  kw !! "dtype" <> None ->
  weibull rs a size chunks gpu kw w =
  (weibull_build rs a (default PyNone size) (default PyNone chunks)
     (default PyNone gpu) kw, w).
Proof.
  intros Hk. unfold weibull, weibull_build.
  destruct (decide (kw !! "dtype" = None)) as [E|_]; [contradiction|].
  unfold_M. cbn.
  destruct (RandomState._handle_size _) as [sz|e]; cbn; [|reflexivity].
  destruct (TensorWeibull _ _ _ _); reflexivity.
Qed.

Lemma weibull_probing rs a size chunks gpu kw (w : World) :
  kw !! "dtype" = None ->
  weibull rs a size chunks gpu kw w =
  match weibull_probe a w with
  | (Ok arr, w') =>
      (weibull_build rs a (default PyNone size) (default PyNone chunks)
         (default PyNone gpu) (<["dtype" := PyDType (nd_dtype arr)]> kw), w')
  | (Raise e, w') => (Raise e, w')
  end.
Proof.
  intros Hk. unfold weibull, weibull_build, weibull_probe.
  destruct (decide (kw !! "dtype" = None)) as [_|E]; [|contradiction].
  unfold_M. cbn.
  destruct (handle_array a) as [an|e]; cbn; [|reflexivity].
  destruct (RandomState_weibull _ an [0] _) as [[arr|e] w']; cbn; [|reflexivity].
  destruct (RandomState._handle_size _) as [sz|e]; cbn; [|reflexivity].
  destruct (TensorWeibull _ _ _ _); reflexivity.
Qed.

(** The node constructor keeps the operand it is given. *)
Lemma new_tensor_inv op inputs sa chunks node :
  new_tensor op inputs sa chunks = Ok node ->
  node_op node = op /\
  node_params node = bind_params (_input_fields_ (op_class op)) inputs 0 /\
  node_inputs node = List.filter is_array_like inputs /\
  node_chunks node = chunks /\
  (forall s, _size op = Some s -> node_shape node = s).
Proof.
  unfold new_tensor. intros H.
  destruct (_size op) as [s|] eqn:Es; cbn in H.
  - injection H as <-. cbn. repeat split; try reflexivity.
    intros s' [= ->]. reflexivity.
  - destruct (mapM declared_shape _) as [shapes|e]; cbn in H; [|discriminate].
    destruct (broadcast_shape shapes) as [sh|e]; cbn in H; [|discriminate].
    injection H as <-. cbn. repeat split; try reflexivity.
    intros s' Hs. discriminate.
Qed.

Lemma Operand__init__inv c size st dt gpu kw op :
  Operand__init__ c size st dt gpu kw = Ok op ->
  op = mk_Operand c size st dt (gpu_flag gpu) kw.
Proof.
  unfold Operand__init__. destruct (decide _); [|discriminate].
  intros [= <-]. reflexivity.
Qed.

Lemma canonical_dtype_inv (v : pyobj) (f : option dtype) :
  (if is_None v then Ok None else Some <$> np_dtype v) = Ok f ->
  dtype_field v f.
Proof.
  destruct (is_None v) eqn:E.
  - intros [= <-]. left. destruct v; try discriminate. split; reflexivity.
  - intros H. right. split; [intros ->; discriminate|].
    destruct (np_dtype v) as [d|e]; cbn in H; [|discriminate].
    injection H as <-. exists d. split; reflexivity.
Qed.

Lemma TensorUniform_inv size st gpu kw op :
  TensorUniform size st gpu kw = Ok op ->
  op_class op = Uniform /\ _size op = size /\ _state op = st /\
  _gpu op = gpu_flag gpu /\
  op_kw op = delete "dtype" kw /\
  dtype_field (default PyNone (kw !! "dtype")) (_dtype op).
Proof.
  unfold TensorUniform, TensorUniform__init__.
  destruct (decide _); [|discriminate]. intros H.
  destruct (if is_None _ then _ else _) as [f|e] eqn:Ef; cbn in H; [|discriminate].
  apply Operand__init__inv in H. subst op. cbn.
  repeat split; try reflexivity. apply canonical_dtype_inv, Ef.
Qed.

Lemma TensorWeibull_inv size st gpu kw op :
  TensorWeibull size st gpu kw = Ok op ->
  op_class op = Weibull /\ _size op = size /\ _state op = st /\
  _gpu op = gpu_flag gpu /\
  op_kw op = delete "dtype" kw /\
  dtype_field (default PyNone (kw !! "dtype")) (_dtype op).
Proof.
  unfold TensorWeibull, TensorWeibull__init__.
  destruct (decide _); [|discriminate]. intros H.
  destruct (if is_None _ then _ else _) as [f|e] eqn:Ef; cbn in H; [|discriminate].
  apply Operand__init__inv in H. subst op. cbn.
  repeat split; try reflexivity. apply canonical_dtype_inv, Ef.
Qed.

Lemma uniform_build_inv rs low high size chunks gpu kw node :
  uniform_build rs low high size chunks gpu kw = Ok node ->
  exists sz,
    RandomState._handle_size size = Ok sz /\
    TensorUniform sz (RandomState._state rs) gpu kw = Ok (node_op node) /\
    new_tensor (node_op node) [low; high] PyNone chunks = Ok node.
Proof.
  unfold uniform_build, TensorUniform__call__. intros H.
  destruct (RandomState._handle_size size) as [sz|e] eqn:Es; cbn in H; [|discriminate].
  destruct (TensorUniform sz _ gpu kw) as [op|e] eqn:Eo; cbn in H; [|discriminate].
  pose proof (new_tensor_inv _ _ _ _ _ H) as (Hop & _).
  exists sz. rewrite Hop. repeat split; assumption.
Qed.

Lemma weibull_build_inv rs a size chunks gpu kw node :
  weibull_build rs a size chunks gpu kw = Ok node ->
  exists sz,
    RandomState._handle_size size = Ok sz /\
    TensorWeibull sz (RandomState._state rs) gpu kw = Ok (node_op node) /\
    new_tensor (node_op node) [a] PyNone chunks = Ok node.
Proof.
  unfold weibull_build, TensorWeibull__call__. intros H.
  destruct (RandomState._handle_size size) as [sz|e] eqn:Es; cbn in H; [|discriminate].
  destruct (TensorWeibull sz _ gpu kw) as [op|e] eqn:Eo; cbn in H; [|discriminate].
  pose proof (new_tensor_inv _ _ _ _ _ H) as (Hop & _).
  exists sz. rewrite Hop. repeat split; assumption.
Qed.

(** The [_dtype] field of the operand of a node that was built. *)
Lemma uniform_build_dtype rs low high size chunks gpu kw node :
  uniform_build rs low high size chunks gpu kw = Ok node ->
  dtype_field (default PyNone (kw !! "dtype")) (_dtype (node_op node)).
Proof.
  intros H. apply uniform_build_inv in H as (sz & _ & H & _).
  apply TensorUniform_inv in H. tauto.
Qed.

Lemma weibull_build_dtype rs a size chunks gpu kw node :
  weibull_build rs a size chunks gpu kw = Ok node ->
  dtype_field (default PyNone (kw !! "dtype")) (_dtype (node_op node)).
Proof.
  intros H. apply weibull_build_inv in H as (sz & _ & H & _).
  apply TensorWeibull_inv in H. tauto.
Qed.

Lemma dtype_field_instance d f : dtype_field (PyDType d) f -> f = Some d.
Proof.
  intros [[E _]|(_ & d' & Hd & ->)]; [discriminate|].
  rewrite np_dtype_instance in Hd. congruence.
Qed.

(** *** The generators *)

(** A new generator is at a reference of its own, holds the seed the
    entropy source gave, and leaves the generators alive as they were. *)
Lemma np_random_RandomState_spec (w : World) :
  exists l w1,
    np_random_RandomState w = (Ok l, w1) /\
    w_gens w !! l = None /\
    w_gens w1 !! l = Some (np_seed (w_urandom w (w_reads w))) /\
    (forall l', l' <> l -> w_gens w1 !! l' = w_gens w !! l').
Proof.
  exists (fresh (dom (w_gens w))). eexists. split; [reflexivity|]. cbn.
  split; [|split].
  - apply not_elem_of_dom, is_fresh.
  - apply lookup_insert_eq.
  - intros l' Hl. apply lookup_insert_ne. congruence.
Qed.

(** Sampling on one generator leaves the others as they were. *)
Lemma sample_frame l draw (w : World) l' :
  l' <> l -> w_gens (sample l draw w).2 !! l' = w_gens w !! l'.
Proof.
  intros Hl. unfold sample.
  destruct (w_gens w !! l) as [g|]; [|reflexivity].
  destruct (draw g) as [[arr g']|e]; [|reflexivity].
  cbn. apply lookup_insert_ne. congruence.
Qed.

(** What sampling on a generator returns depends on the state of that
    generator alone. *)
Lemma sample_result l draw (w : World) g :
  w_gens w !! l = Some g ->
  (sample l draw w).1 = fst <$> draw g.
Proof.
  intros Hg. unfold sample. rewrite Hg.
  destruct (draw g) as [[arr g']|e]; reflexivity.
Qed.

Lemma uniform_probe_frame low high (w : World) l' :
  is_Some (w_gens w !! l') ->
  w_gens (uniform_probe low high w).2 !! l' = w_gens w !! l'.
Proof.
  intros Hl'. unfold uniform_probe. unfold_M.
  destruct (np_random_RandomState_spec w) as (l & w1 & -> & Hnew & _ & Hfr).
  assert (l' <> l) as Hne by (intros ->; rewrite Hnew in Hl'; destruct Hl'; discriminate).
  destruct (handle_array low) as [lo|e]; [|by apply Hfr].
  destruct (handle_array high) as [hi|e]; [|by apply Hfr].
  unfold RandomState_uniform.
  pose proof (sample_frame l (fun g => np_uniform g lo hi [0]) w1 l' Hne) as Hs.
  destruct (sample _ _ w1) as [[arr|e] w']; cbn in Hs |- *; rewrite Hs; by apply Hfr.
Qed.

Lemma weibull_probe_frame a (w : World) l' :
  is_Some (w_gens w !! l') ->
  w_gens (weibull_probe a w).2 !! l' = w_gens w !! l'.
Proof.
  intros Hl'. unfold weibull_probe. unfold_M.
  destruct (np_random_RandomState_spec w) as (l & w1 & -> & Hnew & _ & Hfr).
  assert (l' <> l) as Hne by (intros ->; rewrite Hnew in Hl'; destruct Hl'; discriminate).
  destruct (handle_array a) as [an|e]; [|by apply Hfr].
  unfold RandomState_weibull.
  pose proof (sample_frame l (fun g => np_weibull g an [0]) w1 l' Hne) as Hs.
  destruct (sample _ _ w1) as [[arr|e] w']; cbn in Hs |- *; rewrite Hs; by apply Hfr.
Qed.

(** The outcome of a probe is a function of the parameters and of the
    entropy read; the generators alive have no part in it. *)
Lemma uniform_probe_result low high (w : World) :
  (uniform_probe low high w).1 =
  (lo ← handle_array low; hi ← handle_array high;
   fst <$> np_uniform (np_seed (w_urandom w (w_reads w))) lo hi [0]).
Proof.
  unfold uniform_probe. unfold_M.
  destruct (np_random_RandomState_spec w) as (l & w1 & -> & _ & Hseed & _).
  destruct (handle_array low) as [lo|e]; [|reflexivity].
  destruct (handle_array high) as [hi|e]; [|reflexivity]. cbn.
  pose proof (sample_result l (fun g => np_uniform g lo hi [0]) w1 _ Hseed) as Hs.
  unfold RandomState_uniform.
  destruct (sample _ _ w1) as [[arr|e] w']; cbn in Hs |- *; exact Hs.
Qed.

Lemma weibull_probe_result a (w : World) :
  (weibull_probe a w).1 =
  (an ← handle_array a;
   fst <$> np_weibull (np_seed (w_urandom w (w_reads w))) an [0]).
Proof.
  unfold weibull_probe. unfold_M.
  destruct (np_random_RandomState_spec w) as (l & w1 & -> & _ & Hseed & _).
  destruct (handle_array a) as [an|e]; [|reflexivity]. cbn.
  pose proof (sample_result l (fun g => np_weibull g an [0]) w1 _ Hseed) as Hs.
  unfold RandomState_weibull.
  destruct (sample _ _ w1) as [[arr|e] w']; cbn in Hs |- *; exact Hs.
Qed.

(** A call leaves every generator that was alive as it was. *)
Lemma uniform_frame rs low high size chunks gpu kw (w : World) l' :
  is_Some (w_gens w !! l') ->
  w_gens (uniform rs low high size chunks gpu kw w).2 !! l' = w_gens w !! l'.
Proof.
  intros Hl'. destruct (kw !! "dtype") as [v|] eqn:Ek.
  - rewrite uniform_explicit by congruence. reflexivity.
  - rewrite uniform_probing by assumption.
    pose proof (uniform_probe_frame (default (PyFloat 0) low)
                  (default (PyFloat 1) high) w l' Hl') as Hp.
    destruct (uniform_probe _ _ w) as [[arr|e] w']; exact Hp.
Qed.

Lemma weibull_frame rs a size chunks gpu kw (w : World) l' :
  is_Some (w_gens w !! l') ->
  w_gens (weibull rs a size chunks gpu kw w).2 !! l' = w_gens w !! l'.
Proof.
  intros Hl'. destruct (kw !! "dtype") as [v|] eqn:Ek.
  - rewrite weibull_explicit by congruence. reflexivity.
  - rewrite weibull_probing by assumption.
    pose proof (weibull_probe_frame a w l' Hl') as Hp.
    destruct (weibull_probe _ w) as [[arr|e] w']; exact Hp.
Qed.

(** A probe that returned an array: the parameters were normalized and
    NumPy, on a generator seeded from the entropy read, returned it. *)
Lemma uniform_probe_Ok low high (w w' : World) arr :
  uniform_probe low high w = (Ok arr, w') ->
  exists lo hi g',
    handle_array low = Ok lo /\ handle_array high = Ok hi /\
    np_uniform (np_seed (w_urandom w (w_reads w))) lo hi [0] = Ok (arr, g').
Proof.
  intros H. pose proof (uniform_probe_result low high w) as Hp.
  rewrite H in Hp. cbn in Hp.
  destruct (handle_array low) as [lo|e]; cbn in Hp; [|discriminate].
  destruct (handle_array high) as [hi|e]; cbn in Hp; [|discriminate].
  destruct (np_uniform _ lo hi [0]) as [[arr0 g']|e] eqn:Enp; cbn in Hp;
    [|discriminate].
  injection Hp as ->. exists lo, hi, g'. repeat split; try reflexivity. exact Enp.
Qed.

Lemma weibull_probe_Ok a (w w' : World) arr :
  weibull_probe a w = (Ok arr, w') ->
  exists an g',
    handle_array a = Ok an /\
    np_weibull (np_seed (w_urandom w (w_reads w))) an [0] = Ok (arr, g').
Proof.
  intros H. pose proof (weibull_probe_result a w) as Hp.
  rewrite H in Hp. cbn in Hp.
  destruct (handle_array a) as [an|e]; cbn in Hp; [|discriminate].
  destruct (np_weibull _ an [0]) as [[arr0 g']|e] eqn:Enp; cbn in Hp;
    [|discriminate].
  injection Hp as ->. exists an, g'. repeat split; try reflexivity. exact Enp.
Qed.

(** *** What a returned node says about the call *)

(** The operand fields of a node [uniform] returns: every field but the
    dtype is the argument it was given; the dtype comes from the probe when
    [kw] has no [dtype] key, and from the key otherwise, in which case the
    world is the one the call started in. *)
Lemma uniform_returns rs low high size chunks gpu kw (w : World) :
  returns (uniform rs low high size chunks gpu kw w) (fun node w' =>
    _state (node_op node) = RandomState._state rs /\
    _gpu (node_op node) = gpu_flag (default PyNone gpu) /\
    RandomState._handle_size (default PyNone size) = Ok (_size (node_op node)) /\
    match kw !! "dtype" with
    | None =>
        exists arr,
          uniform_probe (default (PyFloat 0) low) (default (PyFloat 1) high) w
            = (Ok arr, w') /\
          _dtype (node_op node) = Some (nd_dtype arr)
    | Some v => w' = w /\ dtype_field v (_dtype (node_op node))
    end).
Proof.
  destruct (kw !! "dtype") as [v|] eqn:Ek.
  - rewrite uniform_explicit by congruence. unfold returns.
    destruct (uniform_build _ _ _ _ _ _ _) as [node|e] eqn:Eb; [|exact I].
    pose proof (uniform_build_dtype _ _ _ _ _ _ _ _ Eb) as Hd.
    apply uniform_build_inv in Eb as (sz & Hs & Hop & _).
    apply TensorUniform_inv in Hop as (_ & Hsz & Hst & Hg & _).
    rewrite Ek in Hd. cbn in Hd. subst sz. repeat split; assumption.
  - rewrite uniform_probing by assumption.
    destruct (uniform_probe _ _ w) as [[arr|e] w'] eqn:Ep; [|exact I].
    unfold returns.
    destruct (uniform_build _ _ _ _ _ _ _) as [node|e] eqn:Eb; [|exact I].
    pose proof (uniform_build_dtype _ _ _ _ _ _ _ _ Eb) as Hd.
    apply uniform_build_inv in Eb as (sz & Hs & Hop & _).
    apply TensorUniform_inv in Hop as (_ & Hsz & Hst & Hg & _).
    rewrite lookup_insert_eq in Hd. cbn in Hd.
    apply dtype_field_instance in Hd. subst sz.
    repeat split; try assumption. exists arr. split; [reflexivity|assumption].
Qed.

Lemma weibull_returns rs a size chunks gpu kw (w : World) :
  returns (weibull rs a size chunks gpu kw w) (fun node w' =>
    _state (node_op node) = RandomState._state rs /\
    _gpu (node_op node) = gpu_flag (default PyNone gpu) /\
    RandomState._handle_size (default PyNone size) = Ok (_size (node_op node)) /\
    match kw !! "dtype" with
    | None =>
        exists arr,
          weibull_probe a w = (Ok arr, w') /\
          _dtype (node_op node) = Some (nd_dtype arr)
    | Some v => w' = w /\ dtype_field v (_dtype (node_op node))
    end).
Proof.
  destruct (kw !! "dtype") as [v|] eqn:Ek.
  - rewrite weibull_explicit by congruence. unfold returns.
    destruct (weibull_build _ _ _ _ _ _) as [node|e] eqn:Eb; [|exact I].
    pose proof (weibull_build_dtype _ _ _ _ _ _ _ Eb) as Hd.
    apply weibull_build_inv in Eb as (sz & Hs & Hop & _).
    apply TensorWeibull_inv in Hop as (_ & Hsz & Hst & Hg & _).
    rewrite Ek in Hd. cbn in Hd. subst sz. repeat split; assumption.
  - rewrite weibull_probing by assumption.
    destruct (weibull_probe _ w) as [[arr|e] w'] eqn:Ep; [|exact I].
    unfold returns.
    destruct (weibull_build _ _ _ _ _ _) as [node|e] eqn:Eb; [|exact I].
    pose proof (weibull_build_dtype _ _ _ _ _ _ _ Eb) as Hd.
    apply weibull_build_inv in Eb as (sz & Hs & Hop & _).
    apply TensorWeibull_inv in Hop as (_ & Hsz & Hst & Hg & _).
    rewrite lookup_insert_eq in Hd. cbn in Hd.
    apply dtype_field_instance in Hd. subst sz.
    repeat split; try assumption. exists arr. split; [reflexivity|assumption].
Qed.

(** *** The dtype of the operand *)


Lemma dtype_field_not_None v f : v <> PyNone -> dtype_field v f -> f <> None.
Proof.
  intros Hv [[E _]|(_ & d & _ & ->)]; [contradiction|discriminate].
Qed.

(** C2, as amended: when the [dtype] keyword is absent, or present with a
    value other than [None], the dtype of the operand of the node returned
    is not [None]; when it is absent, that dtype is the one the zero-size
    probe returned, the probe having run before the operand was built. *)
Theorem dtype_set_unless_None_passed rs low high a size chunks gpu kw (w : World) :
  kw !! "dtype" <> Some PyNone ->
  returns (uniform rs low high size chunks gpu kw w) (fun node w' =>
    _dtype (node_op node) <> None /\
    (kw !! "dtype" = None ->
     exists arr,
       uniform_probe (default (PyFloat 0) low) (default (PyFloat 1) high) w
         = (Ok arr, w') /\
       _dtype (node_op node) = Some (nd_dtype arr))) /\
  returns (weibull rs a size chunks gpu kw w) (fun node w' =>
    _dtype (node_op node) <> None /\
    (kw !! "dtype" = None ->
     exists arr,
       weibull_probe a w = (Ok arr, w') /\
       _dtype (node_op node) = Some (nd_dtype arr))).
Proof.
  intros Hk. split.
  - from_returns uniform_returns. intros node w' (_ & _ & _ & H).
    destruct (kw !! "dtype") as [v|].
    + destruct H as [_ H]. split; [|discriminate].
      eapply dtype_field_not_None; [|exact H]. congruence.
    + split; [|intros _; exact H].
      destruct H as (arr & _ & ->). discriminate.
  - from_returns weibull_returns. intros node w' (_ & _ & _ & H).
    destruct (kw !! "dtype") as [v|].
    + destruct H as [_ H]. split; [|discriminate].
      eapply dtype_field_not_None; [|exact H]. congruence.
    + split; [|intros _; exact H].
      destruct H as (arr & _ & ->). discriminate.
Qed.

(** C10: with [dtype=None] passed as a keyword the guard, which tests the
    key and not the value, skips the probe (the world is left as it was)
    and the dtype of the operand of the node returned is [None]. *)
Theorem dtype_None_keyword_skips_probe rs low high a size chunks gpu kw (w : World) :
  kw !! "dtype" = Some PyNone ->
  ((uniform rs low high size chunks gpu kw w).2 = w /\
   returns (uniform rs low high size chunks gpu kw w) (fun node _ =>
     _dtype (node_op node) = None)) /\
  ((weibull rs a size chunks gpu kw w).2 = w /\
   returns (weibull rs a size chunks gpu kw w) (fun node _ =>
     _dtype (node_op node) = None)).
Proof.
  intros Hk. split; split.
  - rewrite uniform_explicit by congruence. reflexivity.
  - from_returns uniform_returns. rewrite Hk. intros node w' (_ & _ & _ & _ & [[_ E]|(E & _)]).
    + exact E.
    + contradiction.
  - rewrite weibull_explicit by congruence. reflexivity.
  - from_returns weibull_returns. rewrite Hk. intros node w' (_ & _ & _ & _ & [[_ E]|(E & _)]).
    + exact E.
    + contradiction.
Qed.

(** *** The gpu flag *)


(** C3: a call without a [dtype] keyword probes on a source of its own:
    what the probe returns is the same in every world that hands out the
    same entropy, whatever generators are alive there and in whatever
    state; and the generator behind [random_state._state] is, after the
    call, in the state it was in before, in the run that probes and in the
    run that is given a dtype alike; the operand of either run refers to
    that same generator. *)
Theorem probe_leaves_random_state rs low high a size chunks gpu kw v (w : World) g :
  w_gens w !! RandomState._state rs = Some g ->
  kw !! "dtype" = None ->
  (forall w2 : World,
     w_urandom w2 (w_reads w2) = w_urandom w (w_reads w) ->
     (uniform_probe (default (PyFloat 0) low) (default (PyFloat 1) high) w2).1 =
     (uniform_probe (default (PyFloat 0) low) (default (PyFloat 1) high) w).1 /\
     (weibull_probe a w2).1 = (weibull_probe a w).1) /\
  (w_gens (uniform rs low high size chunks gpu kw w).2
     !! RandomState._state rs = Some g /\
   w_gens (uniform rs low high size chunks gpu (<["dtype" := v]> kw) w).2
     !! RandomState._state rs = Some g /\
   w_gens (weibull rs a size chunks gpu kw w).2
     !! RandomState._state rs = Some g /\
   w_gens (weibull rs a size chunks gpu (<["dtype" := v]> kw) w).2
     !! RandomState._state rs = Some g) /\
  (returns (uniform rs low high size chunks gpu kw w) (fun node _ =>
     _state (node_op node) = RandomState._state rs) /\
   returns (uniform rs low high size chunks gpu (<["dtype" := v]> kw) w)
     (fun node _ => _state (node_op node) = RandomState._state rs) /\
   returns (weibull rs a size chunks gpu kw w) (fun node _ =>
     _state (node_op node) = RandomState._state rs) /\
   returns (weibull rs a size chunks gpu (<["dtype" := v]> kw) w)
     (fun node _ => _state (node_op node) = RandomState._state rs)).
Proof.
  intros Hg Hk. split; [|split; repeat split].
  - intros w2 He. rewrite !uniform_probe_result, !weibull_probe_result, He.
    split; reflexivity.
  - rewrite uniform_frame by (rewrite Hg; eauto). exact Hg.
  - rewrite uniform_frame by (rewrite Hg; eauto). exact Hg.
  - rewrite weibull_frame by (rewrite Hg; eauto). exact Hg.
  - rewrite weibull_frame by (rewrite Hg; eauto). exact Hg.
  - from_returns uniform_returns. tauto.
  - from_returns uniform_returns. tauto.
  - from_returns weibull_returns. tauto.
  - from_returns weibull_returns. tauto.
Qed.

(** *** Errors *)

(** C4, as amended: [weibull] checks nothing about [a] itself. Without a
    [dtype] keyword, when NumPy's zero-size probe refuses the normalized
    [a], the call raises what the probe raised; no operand is built, no
    node is returned. *)
Theorem weibull_raises_what_probe_raises rs a size chunks gpu kw (w : World) an e :
  kw !! "dtype" = None ->
  handle_array a = Ok an ->
  np_weibull (np_seed (w_urandom w (w_reads w))) an [0] = Raise e ->
  (weibull rs a size chunks gpu kw w).1 = Raise e.
Proof.
  intros Hk Ha He. rewrite weibull_probing by assumption.
  pose proof (weibull_probe_result a w) as Hp.
  rewrite Ha in Hp. cbn in Hp. rewrite He in Hp. cbn in Hp.
  destruct (weibull_probe a w) as [[arr|e'] w']; cbn in Hp |- *; congruence.
Qed.

(** The operand [TensorUniform] builds from keywords that hold a probed
    dtype and nothing else. *)
Lemma TensorUniform_probed size st gpu d :
  TensorUniform size st gpu (<["dtype" := PyDType d]> ∅) =
  Ok (mk_Operand Uniform size st (Some d) (gpu_flag gpu) ∅).
Proof.
  unfold TensorUniform.
  destruct (decide _) as [_|Hn].
  - rewrite lookup_insert_eq. cbn. unfold TensorUniform__init__. cbn.
    rewrite np_dtype_instance. cbn.
    rewrite delete_insert_eq, delete_empty. reflexivity.
  - exfalso. apply Hn. repeat split; reflexivity.
Qed.

Lemma uniform_build_probed rs low high size chunks gpu d sz :
  RandomState._handle_size size = Ok sz ->
  uniform_build rs low high size chunks gpu (<["dtype" := PyDType d]> ∅) =
  TensorUniform__call__
    (mk_Operand Uniform sz (RandomState._state rs) (Some d) (gpu_flag gpu) ∅)
    low high chunks.
Proof.
  intros Hs. unfold uniform_build. rewrite Hs. cbn [mbind result_bind].
  rewrite TensorUniform_probed. reflexivity.
Qed.

Lemma TensorUniform__call__mismatch op chunks :
  _size op = None ->
  TensorUniform__call__ op low_2 high_3 chunks = Raise BroadcastShapeError.
Proof.
  intros Hs. unfold TensorUniform__call__, new_tensor. rewrite Hs. reflexivity.
Qed.

(** C6: [uniform(randomState, low=5.0, high=5.0, size=10)] raises nothing
    and returns a node of shape [(10,)], NumPy's probe on the two bounds
    having returned an array. *)
Theorem uniform_equal_bounds_returns rs (w : World) arr g' :
  np_uniform (np_seed (w_urandom w (w_reads w))) five_array five_array [0]
    = Ok (arr, g') ->
  exists node w',
    uniform rs (Some (PyFloat 5)) (Some (PyFloat 5)) (Some (PyInt 10))
            None None ∅ w = (Ok node, w') /\
    node_shape node = [10].
Proof.
  intros Hnp. rewrite uniform_probing by apply lookup_empty. cbn [from_option id].
  pose proof (uniform_probe_result (PyFloat 5) (PyFloat 5) w) as Hp.
  change (handle_array (PyFloat 5)) with (Ok five_array) in Hp.
  cbn in Hp. rewrite Hnp in Hp. cbn in Hp.
  destruct (uniform_probe _ _ w) as [[arr'|e'] w']; cbn in Hp; [|discriminate].
  rewrite (uniform_build_probed _ _ _ _ _ _ _ (Some [10])) by reflexivity.
  eexists _, w'. split; reflexivity.
Qed.

(** *** Idempotence *)

Lemma value_equal_refl n : value_equal n n.
Proof. repeat split. Qed.

End Properties.

(** * The properties on the reference NumPy *)

Example uniform_5_5_10_dtype :
  dtype_of_call (uniform rs0 (Some (PyFloat 5)) (Some (PyFloat 5))
                   (Some (PyInt 10)) None None ∅ world0) = Ok (Some Float64).
Proof. vm_compute. reflexivity. Qed.

Example weibull_5_1000_dtype :
  dtype_of_call (weibull rs0 (PyFloat 5) (Some (PyInt 1000)) None None ∅ world0)
  = Ok (Some Float64).
Proof. vm_compute. reflexivity. Qed.

Example uniform_f8_dtype :
  dtype_of_call (uniform rs0 None None None None None kw_f8 world0)
  = Ok (Some Float64).
Proof. vm_compute. reflexivity. Qed.

Example weibull_f8_dtype :
  dtype_of_call (weibull rs0 (PyFloat 5) None None None kw_f8 world0)
  = Ok (Some Float64).
Proof. vm_compute. reflexivity. Qed.


(** Against C2 as stated: [uniform(random_state, dtype=None)] returns a
    node whose operand has the dtype [None]. *)
Lemma dtype_None_after_construction :
  dtype_of_call (uniform rs0 None None None None None kw_None world0) = Ok None /\
  dtype_of_call (weibull rs0 (PyFloat 5) None None None kw_None world0) = Ok None.
Proof. split; vm_compute; reflexivity. Qed.

Lemma dtype_set_unless_None_passed_witness :
  (∅ : gmap string pyobj) !! "dtype" <> Some PyNone /\
  returns (uniform rs0 None None None None None ∅ world0)
    (fun node w' =>
       _dtype (node_op node) <> None /\
       ((∅ : gmap string pyobj) !! "dtype" = None ->
        exists arr,
          uniform_probe (PyFloat 0) (PyFloat 1) world0 = (Ok arr, w') /\
          _dtype (node_op node) = Some (nd_dtype arr))) /\
  returns (weibull rs0 (PyFloat 5) None None None ∅ world0)
    (fun node w' =>
       _dtype (node_op node) <> None /\
       ((∅ : gmap string pyobj) !! "dtype" = None ->
        exists arr,
          weibull_probe (PyFloat 5) world0 = (Ok arr, w') /\
          _dtype (node_op node) = Some (nd_dtype arr))).
Proof.
  assert ((∅ : gmap string pyobj) !! "dtype" <> Some PyNone) as H
    by (vm_compute; discriminate).
  split; [exact H|].
  exact (@dtype_set_unless_None_passed numpy_ref rs0 None None (PyFloat 5)
           None None None ∅ world0 H).
Defined.

Example uniform_defaults_dtype :
  dtype_of_call (uniform rs0 None None None None None ∅ world0)
  = Ok (Some Float64).
Proof. vm_compute. reflexivity. Qed.

Lemma dtype_None_keyword_skips_probe_witness :
  kw_None !! "dtype" = Some PyNone /\
  ((uniform rs0 None None None None None kw_None world0).2 = world0 /\
   returns (uniform rs0 None None None None None kw_None world0)
     (fun node _ => _dtype (node_op node) = None)) /\
  ((weibull rs0 (PyFloat 5) None None None kw_None world0).2 = world0 /\
   returns (weibull rs0 (PyFloat 5) None None None kw_None world0)
     (fun node _ => _dtype (node_op node) = None)).
Proof.
  assert (kw_None !! "dtype" = Some PyNone) as H by reflexivity.
  split; [exact H|].
  exact (@dtype_None_keyword_skips_probe numpy_ref rs0 None None (PyFloat 5)
           None None None kw_None world0 H).
Defined.

(** The calls of C8 do return, with the flag [False]; and with [True]
    when the caller passes [True]. *)
Example gpu_flag_of_default_calls :
  gpu_of_call (uniform rs0 None None None None None ∅ world0) = Ok (PyBool false) /\
  gpu_of_call (weibull rs0 (PyFloat 5) None None None ∅ world0) = Ok (PyBool false) /\
  gpu_of_call (uniform rs0 None None None None (Some (PyBool true)) ∅ world0)
  = Ok (PyBool true).
Proof. repeat split; vm_compute; reflexivity. Qed.

Lemma probe_leaves_random_state_witness :
  w_gens world0 !! RandomState._state rs0 = Some 42%N /\
  (∅ : gmap string pyobj) !! "dtype" = None /\
  (forall w2 : @World numpy_ref,
     w_urandom w2 (w_reads w2) = w_urandom world0 (w_reads world0) ->
     (uniform_probe (PyFloat 0) (PyFloat 1) w2).1 =
     (uniform_probe (PyFloat 0) (PyFloat 1) world0).1 /\
     (weibull_probe (PyFloat 5) w2).1 = (weibull_probe (PyFloat 5) world0).1) /\
  (w_gens (uniform rs0 None None None None None ∅ world0).2
     !! RandomState._state rs0 = Some 42%N /\
   w_gens (uniform rs0 None None None None None
             (<["dtype" := PyStr "float64"]> ∅) world0).2
     !! RandomState._state rs0 = Some 42%N /\
   w_gens (weibull rs0 (PyFloat 5) None None None ∅ world0).2
     !! RandomState._state rs0 = Some 42%N /\
   w_gens (weibull rs0 (PyFloat 5) None None None
             (<["dtype" := PyStr "float64"]> ∅) world0).2
     !! RandomState._state rs0 = Some 42%N) /\
  (returns (uniform rs0 None None None None None ∅ world0) (fun node _ =>
     _state (node_op node) = RandomState._state rs0) /\
   returns (uniform rs0 None None None None None
              (<["dtype" := PyStr "float64"]> ∅) world0)
     (fun node _ => _state (node_op node) = RandomState._state rs0) /\
   returns (weibull rs0 (PyFloat 5) None None None ∅ world0) (fun node _ =>
     _state (node_op node) = RandomState._state rs0) /\
   returns (weibull rs0 (PyFloat 5) None None None
              (<["dtype" := PyStr "float64"]> ∅) world0)
     (fun node _ => _state (node_op node) = RandomState._state rs0)).
Proof.
  assert (w_gens world0 !! RandomState._state rs0 = Some 42%N) as Hg
    by (vm_compute; reflexivity).
  assert ((∅ : gmap string pyobj) !! "dtype" = None) as Hk by reflexivity.
  split; [exact Hg|]. split; [exact Hk|].
  exact (@probe_leaves_random_state numpy_ref rs0 None None (PyFloat 5)
           None None None ∅ (PyStr "float64") world0 42%N Hg Hk).
Defined.

(** The probing run did make a generator of its own and read entropy; the
    run with a dtype did neither. *)
Example probing_run_world :
  let w' := (uniform rs0 None None None None None ∅ world0).2 in
  map_to_list (w_gens w') = [(2%positive, 3%N); (1%positive, 42%N)] /\
  w_reads w' = 1.
Proof. vm_compute. split; reflexivity. Qed.

(** Against C4 as stated: [weibull(random_state, -1.0, dtype='float64')]
    raises nothing and returns a node with the parameter [-1.0]. *)
Lemma weibull_negative_shape_returns :
  (fun node => node_params node)
    <$> (weibull rs0 (PyFloat (-1)) None None None kw_f8 world0).1
  = Ok [("_a", Constant (PyFloat (-1)))].
Proof. vm_compute. reflexivity. Qed.

Lemma weibull_raises_what_probe_raises_witness :
  (∅ : gmap string pyobj) !! "dtype" = None /\
  handle_array (PyFloat (-1)) = Ok minus_one_array /\
  NumPyRef.weibull (w_urandom world0 (w_reads world0)) minus_one_array [0]
    = Raise ParameterDomainError /\
  (weibull rs0 (PyFloat (-1)) None None None ∅ world0).1
    = Raise ParameterDomainError.
Proof.
  assert ((∅ : gmap string pyobj) !! "dtype" = None) as Hk by reflexivity.
  assert (handle_array (PyFloat (-1)) = Ok minus_one_array) as Ha by reflexivity.
  assert (NumPyRef.weibull (w_urandom world0 (w_reads world0)) minus_one_array [0]
          = Raise ParameterDomainError) as He by reflexivity.
  split; [exact Hk|]. split; [exact Ha|]. split; [exact He|].
  exact (@weibull_raises_what_probe_raises numpy_ref rs0 (PyFloat (-1))
           None None None ∅ world0 minus_one_array ParameterDomainError Hk Ha He).
Defined.

(** With a dtype given there is no probe, and the node constructor is the
    one that refuses the two shapes. *)
Example uniform_shape_mismatch_explicit_dtype :
  (uniform rs0 (Some low_2) (Some high_3) None None None kw_f8 world0).1
  = Raise BroadcastShapeError.
Proof. vm_compute. reflexivity. Qed.

Lemma uniform_equal_bounds_returns_witness :
  NumPyRef.uniform (w_urandom world0 (w_reads world0)) five_array five_array [0]
    = Ok (empty_f8, 3%N) /\
  exists node w',
    uniform rs0 (Some (PyFloat 5)) (Some (PyFloat 5)) (Some (PyInt 10))
            None None ∅ world0 = (Ok node, w') /\
    node_shape node = [10].
Proof.
  assert (NumPyRef.uniform (w_urandom world0 (w_reads world0))
            five_array five_array [0] = Ok (empty_f8, 3%N)) as H
    by (vm_compute; reflexivity).
  split; [exact H|].
  exact (@uniform_equal_bounds_returns numpy_ref rs0 world0 empty_f8 3%N H).
Defined.

(** The two constructions did return, in the first world and in the
    second. *)
Example construction_twice_dtype :
  dtype_of_call (uniform rs0 (Some (PyFloat 5)) (Some (PyFloat 5))
                   (Some (PyInt 10)) None None kw_f8 world1)
  = Ok (Some Float64).
Proof. vm_compute. reflexivity. Qed.

(** * Further properties of the two modules *)

Section Further.
Context `{np : NumPy}.

Ltac unfold_M := unfold mbind, M_bind, mret, M_ret, lift in *.
Ltac from_returns lem := eapply returns_impl; [|apply lem]; cbn beta.

(** *** What a probe costs *)

(** Sampling on a live generator changes neither the set of generators nor
    the entropy source. *)
Lemma sample_world l draw (w : World) :
  is_Some (w_gens w !! l) ->
  w_reads (sample l draw w).2 = w_reads w /\
  w_urandom (sample l draw w).2 = w_urandom w /\
  dom (w_gens (sample l draw w).2) = dom (w_gens w).
Proof.
  intros [g Hg]. unfold sample. rewrite Hg.
  destruct (draw g) as [[arr g']|e]; cbn; repeat split; try reflexivity.
  rewrite dom_insert_L. apply subseteq_union_1_L, singleton_subseteq_l.
  eapply elem_of_dom_2, Hg.
Qed.

(** The world a new generator leaves. *)
Lemma np_random_RandomState_world (w : World) :
  np_random_RandomState w =
  (Ok (fresh (dom (w_gens w))),
   mk_World (<[fresh (dom (w_gens w)) := np_seed (w_urandom w (w_reads w))]>
               (w_gens w))
            (w_urandom w) (S (w_reads w))).
Proof. reflexivity. Qed.

Lemma uniform_probe_world low high (w : World) :
  one_probe w (uniform_probe low high w).2.
Proof.
  unfold uniform_probe, one_probe. unfold_M.
  rewrite np_random_RandomState_world.
  set (l := fresh (dom (w_gens w))).
  set (w1 := mk_World _ _ _).
  assert (w_reads w1 = S (w_reads w) /\ w_urandom w1 = w_urandom w /\
          dom (w_gens w1) = {[l]} ∪ dom (w_gens w)) as H1.
  { subst w1. cbn. repeat split. apply dom_insert_L. }
  destruct (handle_array low) as [lo|e]; [|exact H1].
  destruct (handle_array high) as [hi|e]; [|exact H1].
  unfold RandomState_uniform.
  assert (is_Some (w_gens w1 !! l)) as Hl
    by (subst w1; cbn; rewrite lookup_insert_eq; eauto).
  pose proof (sample_world l (fun g => np_uniform g lo hi [0]) w1 Hl)
    as (Hr & Hu & Hd).
  destruct H1 as (H1r & H1u & H1d).
  destruct (sample _ _ w1) as [[arr|e] w']; cbn in *;
    rewrite Hr, Hu, Hd; repeat split; assumption.
Qed.

Lemma weibull_probe_world a (w : World) :
  one_probe w (weibull_probe a w).2.
Proof.
  unfold weibull_probe, one_probe. unfold_M.
  rewrite np_random_RandomState_world.
  set (l := fresh (dom (w_gens w))).
  set (w1 := mk_World _ _ _).
  assert (w_reads w1 = S (w_reads w) /\ w_urandom w1 = w_urandom w /\
          dom (w_gens w1) = {[l]} ∪ dom (w_gens w)) as H1.
  { subst w1. cbn. repeat split. apply dom_insert_L. }
  destruct (handle_array a) as [an|e]; [|exact H1].
  unfold RandomState_weibull.
  assert (is_Some (w_gens w1 !! l)) as Hl
    by (subst w1; cbn; rewrite lookup_insert_eq; eauto).
  pose proof (sample_world l (fun g => np_weibull g an [0]) w1 Hl)
    as (Hr & Hu & Hd).
  destruct H1 as (H1r & H1u & H1d).
  destruct (sample _ _ w1) as [[arr|e] w']; cbn in *;
    rewrite Hr, Hu, Hd; repeat split; assumption.
Qed.

Lemma uniform_probing_world rs low high size chunks gpu kw (w : World) :
  kw !! "dtype" = None ->
  one_probe w (uniform rs low high size chunks gpu kw w).2.
Proof.
  intros Hk. rewrite uniform_probing by assumption.
  pose proof (uniform_probe_world (default (PyFloat 0) low)
                (default (PyFloat 1) high) w) as Hp.
  destruct (uniform_probe _ _ w) as [[arr|e] w']; exact Hp.
Qed.

Lemma weibull_probing_world rs a size chunks gpu kw (w : World) :
  kw !! "dtype" = None ->
  one_probe w (weibull rs a size chunks gpu kw w).2.
Proof.
  intros Hk. rewrite weibull_probing by assumption.
  pose proof (weibull_probe_world a w) as Hp.
  destruct (weibull_probe _ w) as [[arr|e] w']; exact Hp.
Qed.

(** X1: a call without a [dtype] keyword makes exactly one generator,
    at a reference that was free, and reads exactly one word of entropy,
    whether it then returns a node or raises. *)
Theorem probing_call_makes_one_generator rs low high a size chunks gpu kw (w : World) :
  kw !! "dtype" = None ->
  one_probe w (uniform rs low high size chunks gpu kw w).2 /\
  one_probe w (weibull rs a size chunks gpu kw w).2.
Proof.
  intros Hk. split.
  - apply uniform_probing_world, Hk.
  - apply weibull_probing_world, Hk.
Qed.

(** X2: two calls in a row without a [dtype] keyword probe on two
    different generators; the second call leaves the generator of the
    first as the first left it, and two words of entropy are gone. *)
Theorem successive_probes_use_distinct_generators
    rs low high size chunks gpu kw rs' a' size' chunks' gpu' kw' (w : World) :
  kw !! "dtype" = None ->
  kw' !! "dtype" = None ->
  let w1 := (uniform rs low high size chunks gpu kw w).2 in
  let w2 := (weibull rs' a' size' chunks' gpu' kw' w1).2 in
  let l := fresh (dom (w_gens w)) in
  is_Some (w_gens w1 !! l) /\
  fresh (dom (w_gens w1)) <> l /\
  w_gens w2 !! l = w_gens w1 !! l /\
  w_reads w2 = S (S (w_reads w)).
Proof.
  intros Hk Hk' w1 w2 l.
  pose proof (uniform_probing_world rs low high size chunks gpu kw w Hk)
    as (Hr & _ & Hd).
  pose proof (weibull_probing_world rs' a' size' chunks' gpu' kw' w1 Hk')
    as (Hr' & _ & _).
  fold w1 in Hr, Hd. fold w2 in Hr'. fold l in Hd.
  assert (l ∈ dom (w_gens w1)) as Hl
    by (rewrite Hd; apply elem_of_union_l, elem_of_singleton; reflexivity).
  split; [apply elem_of_dom, Hl|]. split; [|split].
  - intros E. rewrite <- E in Hl. exact (is_fresh _ Hl).
  - apply weibull_frame, elem_of_dom, Hl.
  - rewrite Hr', Hr. reflexivity.
Qed.

(** *** The dtype a probe gives *)

(** X3: when the probe of a call returns an array, the call does what the
    same call with that array's dtype passed as [dtype] does: the same
    node or the same error. *)
Theorem probing_is_explicit_with_probed_dtype
    rs low high a size chunks gpu kw (w : World) lo hi arr g' an arr' g'' :
  kw !! "dtype" = None ->
  handle_array (default (PyFloat 0) low) = Ok lo ->
  handle_array (default (PyFloat 1) high) = Ok hi ->
  np_uniform (np_seed (w_urandom w (w_reads w))) lo hi [0] = Ok (arr, g') ->
  handle_array a = Ok an ->
  np_weibull (np_seed (w_urandom w (w_reads w))) an [0] = Ok (arr', g'') ->
  (uniform rs low high size chunks gpu kw w).1 =
  (uniform rs low high size chunks gpu
     (<["dtype" := PyDType (nd_dtype arr)]> kw) w).1 /\
  (weibull rs a size chunks gpu kw w).1 =
  (weibull rs a size chunks gpu
     (<["dtype" := PyDType (nd_dtype arr')]> kw) w).1.
Proof.
  intros Hk Hlo Hhi Hu Han Hw. split.
  - rewrite uniform_probing by assumption.
    rewrite uniform_explicit by (rewrite lookup_insert_eq; discriminate).
    pose proof (uniform_probe_result (default (PyFloat 0) low)
                  (default (PyFloat 1) high) w) as Hp.
    rewrite Hlo, Hhi in Hp. cbn in Hp. rewrite Hu in Hp. cbn in Hp.
    destruct (uniform_probe _ _ w) as [[arr0|e] w']; cbn in Hp; [|discriminate].
    injection Hp as ->. reflexivity.
  - rewrite weibull_probing by assumption.
    rewrite weibull_explicit by (rewrite lookup_insert_eq; discriminate).
    pose proof (weibull_probe_result a w) as Hp.
    rewrite Han in Hp. cbn in Hp. rewrite Hw in Hp. cbn in Hp.
    destruct (weibull_probe _ w) as [[arr0|e] w']; cbn in Hp; [|discriminate].
    injection Hp as ->. reflexivity.
Qed.

(** X4: the dtype a call infers depends on the distribution parameters and
    on the entropy read, and on nothing else: two calls from the same
    world on the same parameters, whatever the random state, size, chunks,
    gpu flag and other keywords of each, give operands of the same dtype
    and leave the same world. *)
Theorem probed_dtype_ignores_other_arguments
    rs1 rs2 low high a size1 size2 chunks1 chunks2 gpu1 gpu2 kw1 kw2 (w : World) :
  kw1 !! "dtype" = None ->
  kw2 !! "dtype" = None ->
  returns (uniform rs1 low high size1 chunks1 gpu1 kw1 w) (fun n1 w1 =>
    returns (uniform rs2 low high size2 chunks2 gpu2 kw2 w) (fun n2 w2 =>
      _dtype (node_op n1) = _dtype (node_op n2) /\ w1 = w2)) /\
  returns (weibull rs1 a size1 chunks1 gpu1 kw1 w) (fun n1 w1 =>
    returns (weibull rs2 a size2 chunks2 gpu2 kw2 w) (fun n2 w2 =>
      _dtype (node_op n1) = _dtype (node_op n2) /\ w1 = w2)).
Proof.
  intros Hk1 Hk2. split.
  - from_returns uniform_returns. rewrite Hk1.
    intros n1 w1 (_ & _ & _ & arr1 & Hp1 & Hd1).
    from_returns uniform_returns. rewrite Hk2.
    intros n2 w2 (_ & _ & _ & arr2 & Hp2 & Hd2).
    rewrite Hp1 in Hp2. injection Hp2 as <- <-.
    split; [congruence|reflexivity].
  - from_returns weibull_returns. rewrite Hk1.
    intros n1 w1 (_ & _ & _ & arr1 & Hp1 & Hd1).
    from_returns weibull_returns. rewrite Hk2.
    intros n2 w2 (_ & _ & _ & arr2 & Hp2 & Hd2).
    rewrite Hp1 in Hp2. injection Hp2 as <- <-.
    split; [congruence|reflexivity].
Qed.

(** *** Keywords *)

Lemma is_None_true v : is_None v = true <-> v = PyNone.
Proof. split; [destruct v; (discriminate || reflexivity)|intros ->; reflexivity]. Qed.

Lemma dtype_field_canonical v f :
  dtype_field v f ->
  (if is_None v then Ok None else Some <$> np_dtype v) = Ok f.
Proof.
  intros [[-> ->]|(Hv & d & Hd & ->)]; [reflexivity|].
  destruct (is_None v) eqn:E; [apply is_None_true in E; contradiction|].
  rewrite Hd. reflexivity.
Qed.

Lemma bound_names_lookups (kw : gmap string pyobj) :
  (forall k, k ∈ bound_names -> kw !! k = None) <->
  (kw !! "self" = None /\
   kw !! "size" = None /\ kw !! "state" = None /\ kw !! "gpu" = None) /\
  (delete "dtype" kw !! "_size" = None /\ delete "dtype" kw !! "_state" = None /\
   delete "dtype" kw !! "_dtype" = None /\ delete "dtype" kw !! "_gpu" = None).
Proof.
  rewrite !lookup_delete_ne by discriminate. unfold bound_names, written_out.
  split.
  - intros H. repeat split; apply H; repeat constructor.
  - intros ((H0 & H1 & H2 & H3) & H4 & H5 & H6 & H7) k Hk.
    repeat (apply elem_of_cons in Hk as [->|Hk]; [assumption|]).
    apply elem_of_nil in Hk. contradiction.
Qed.

(** When the two classes return an operand, and which. *)
Lemma TensorUniform_Ok size st gpu kw f :
  (forall k, k ∈ bound_names -> kw !! k = None) ->
  dtype_field (default PyNone (kw !! "dtype")) f ->
  TensorUniform size st gpu kw =
  Ok (mk_Operand Uniform size st f (gpu_flag gpu) (delete "dtype" kw)).
Proof.
  intros Hw Hf. apply bound_names_lookups in Hw as [H1 H2].
  unfold TensorUniform. destruct (decide _) as [_|Hn]; [|contradiction].
  unfold TensorUniform__init__. rewrite (dtype_field_canonical _ _ Hf).
  cbn [mbind result_bind]. unfold Operand__init__.
  destruct (decide _) as [_|Hn]; [reflexivity|contradiction].
Qed.

Lemma TensorWeibull_Ok size st gpu kw f :
  (forall k, k ∈ bound_names -> kw !! k = None) ->
  dtype_field (default PyNone (kw !! "dtype")) f ->
  TensorWeibull size st gpu kw =
  Ok (mk_Operand Weibull size st f (gpu_flag gpu) (delete "dtype" kw)).
Proof.
  intros Hw Hf. apply bound_names_lookups in Hw as [H1 H2].
  unfold TensorWeibull. destruct (decide _) as [_|Hn]; [|contradiction].
  unfold TensorWeibull__init__. rewrite (dtype_field_canonical _ _ Hf).
  cbn [mbind result_bind]. unfold Operand__init__.
  destruct (decide _) as [_|Hn]; [reflexivity|contradiction].
Qed.

Lemma TensorUniform_bound_names size st gpu kw op :
  TensorUniform size st gpu kw = Ok op ->
  forall k, k ∈ bound_names -> kw !! k = None.
Proof.
  intros H. apply bound_names_lookups. revert H.
  unfold TensorUniform. destruct (decide _) as [H1|_]; [|discriminate].
  unfold TensorUniform__init__.
  destruct (if is_None _ then _ else _) as [f|e]; [|discriminate].
  cbn [mbind result_bind]. unfold Operand__init__.
  destruct (decide _) as [H2|_]; [|discriminate]. intros _. split; assumption.
Qed.

Lemma TensorWeibull_bound_names size st gpu kw op :
  TensorWeibull size st gpu kw = Ok op ->
  forall k, k ∈ bound_names -> kw !! k = None.
Proof.
  intros H. apply bound_names_lookups. revert H.
  unfold TensorWeibull. destruct (decide _) as [H1|_]; [|discriminate].
  unfold TensorWeibull__init__.
  destruct (if is_None _ then _ else _) as [f|e]; [|discriminate].
  cbn [mbind result_bind]. unfold Operand__init__.
  destruct (decide _) as [H2|_]; [|discriminate]. intros _. split; assumption.
Qed.

(** The keywords that reach the class, on either path. *)
Lemma uniform_build_of_call rs low high size chunks gpu kw (w : World) :
  returns (uniform rs low high size chunks gpu kw w) (fun node _ =>
    exists kw', (kw' = kw \/ exists d, kw !! "dtype" = None /\
                                       kw' = <["dtype" := PyDType d]> kw) /\
      uniform_build rs (default (PyFloat 0) low) (default (PyFloat 1) high)
        (default PyNone size) (default PyNone chunks) (default PyNone gpu) kw'
      = Ok node).
Proof.
  destruct (kw !! "dtype") as [v|] eqn:Ek.
  - rewrite uniform_explicit by congruence. unfold returns.
    destruct (uniform_build _ _ _ _ _ _ _) as [node|e] eqn:Eb; [|exact I].
    exists kw. split; [left; reflexivity|exact Eb].
  - rewrite uniform_probing by assumption.
    destruct (uniform_probe _ _ w) as [[arr|e] w']; [|exact I]. unfold returns.
    destruct (uniform_build _ _ _ _ _ _ _) as [node|e] eqn:Eb; [|exact I].
    eexists. split; [right; eexists; split; reflexivity|exact Eb].
Qed.

Lemma weibull_build_of_call rs a size chunks gpu kw (w : World) :
  returns (weibull rs a size chunks gpu kw w) (fun node _ =>
    exists kw', (kw' = kw \/ exists d, kw !! "dtype" = None /\
                                       kw' = <["dtype" := PyDType d]> kw) /\
      weibull_build rs a (default PyNone size) (default PyNone chunks)
        (default PyNone gpu) kw' = Ok node).
Proof.
  destruct (kw !! "dtype") as [v|] eqn:Ek.
  - rewrite weibull_explicit by congruence. unfold returns.
    destruct (weibull_build _ _ _ _ _ _) as [node|e] eqn:Eb; [|exact I].
    exists kw. split; [left; reflexivity|exact Eb].
  - rewrite weibull_probing by assumption.
    destruct (weibull_probe _ w) as [[arr|e] w']; [|exact I]. unfold returns.
    destruct (weibull_build _ _ _ _ _ _) as [node|e] eqn:Eb; [|exact I].
    eexists. split; [right; eexists; split; reflexivity|exact Eb].
Qed.

Lemma written_out_not_dtype k : k ∈ written_out -> k <> "dtype".
Proof.
  unfold written_out. intros Hk.
  repeat (apply elem_of_cons in Hk as [->|Hk]; [discriminate|]).
  apply elem_of_nil in Hk. contradiction.
Qed.

Lemma bound_names_not_dtype k : k ∈ bound_names -> k <> "dtype".
Proof.
  intros Hk. apply elem_of_cons in Hk as [->|Hk]; [discriminate|].
  apply written_out_not_dtype, Hk.
Qed.

(** X5: a keyword of the caller's that one of the two modules writes out
    itself ([state], and the fields [_size], [_state], [_dtype], [_gpu])
    is a keyword given twice: the call never returns a node. *)
Theorem written_out_keyword_never_returns rs low high a size chunks gpu kw k (w : World) :
  k ∈ written_out ->
  is_Some (kw !! k) ->
  returns (uniform rs low high size chunks gpu kw w) (fun _ _ => False) /\
  returns (weibull rs a size chunks gpu kw w) (fun _ _ => False).
Proof.
  intros Hk [x Hx]. pose proof (written_out_not_dtype k Hk) as Hne. split.
  - from_returns uniform_build_of_call. intros node w' (kw' & Hkw' & Hb).
    apply uniform_build_inv in Hb as (sz & _ & Hop & _).
    pose proof (TensorUniform_bound_names _ _ _ _ _ Hop k
                  (list_elem_of_further _ _ _ Hk)) as Hnone.
    destruct Hkw' as [->|(d & _ & ->)].
    + congruence.
    + rewrite lookup_insert_ne in Hnone by congruence. congruence.
  - from_returns weibull_build_of_call. intros node w' (kw' & Hkw' & Hb).
    apply weibull_build_inv in Hb as (sz & _ & Hop & _).
    pose proof (TensorWeibull_bound_names _ _ _ _ _ Hop k
                  (list_elem_of_further _ _ _ Hk)) as Hnone.
    destruct Hkw' as [->|(d & _ & ->)].
    + congruence.
    + rewrite lookup_insert_ne in Hnone by congruence. congruence.
Qed.


(** *** Errors, in the order of the source *)

(** X7: without a [dtype] keyword the probe comes first: when normalizing
    a parameter fails, or NumPy refuses the normalized parameters, the call
    raises that error, whatever the size and the other keywords are. *)
Theorem probe_failure_surfaces_first
    rs low high a size chunks gpu kw (w : World) e e' :
  kw !! "dtype" = None ->
  (lo ← handle_array (default (PyFloat 0) low);
   hi ← handle_array (default (PyFloat 1) high);
   fst <$> np_uniform (np_seed (w_urandom w (w_reads w))) lo hi [0]) = Raise e ->
  (an ← handle_array a;
   fst <$> np_weibull (np_seed (w_urandom w (w_reads w))) an [0]) = Raise e' ->
  (uniform rs low high size chunks gpu kw w).1 = Raise e /\
  (weibull rs a size chunks gpu kw w).1 = Raise e'.
Proof.
  intros Hk Hu Hw. split.
  - rewrite uniform_probing by assumption.
    pose proof (uniform_probe_result (default (PyFloat 0) low)
                  (default (PyFloat 1) high) w) as Hp.
    rewrite Hu in Hp.
    destruct (uniform_probe _ _ w) as [[arr|e0] w']; cbn in Hp |- *; congruence.
  - rewrite weibull_probing by assumption.
    pose proof (weibull_probe_result a w) as Hp. rewrite Hw in Hp.
    destruct (weibull_probe _ w) as [[arr|e0] w']; cbn in Hp |- *; congruence.
Qed.

(** X8: a size that is refused is the error of the call whatever the
    dtype and the other keywords are: with a [dtype] keyword the call
    raises it and leaves the world as it was; without one the call raises
    it once the probe has returned, and raises the error of the probe
    otherwise. *)
Theorem invalid_size_raises rs low high a size chunks gpu kw (w : World) e :
  RandomState._handle_size (default PyNone size) = Raise e ->
  match kw !! "dtype" with
  | Some _ =>
      uniform rs low high size chunks gpu kw w = (Raise e, w) /\
      weibull rs a size chunks gpu kw w = (Raise e, w)
  | None =>
      (uniform rs low high size chunks gpu kw w).1 =
      ((uniform_probe (default (PyFloat 0) low) (default (PyFloat 1) high) w).1
         ≫= fun _ => Raise e) /\
      (weibull rs a size chunks gpu kw w).1 =
      ((weibull_probe a w).1 ≫= fun _ => Raise e)
  end.
Proof.
  intros Hs. destruct (kw !! "dtype") as [v|] eqn:Hk; split.
  - rewrite uniform_explicit by congruence. unfold uniform_build.
    rewrite Hs. reflexivity.
  - rewrite weibull_explicit by congruence. unfold weibull_build.
    rewrite Hs. reflexivity.
  - rewrite uniform_probing by assumption.
    destruct (uniform_probe _ _ w) as [[arr|e0] w']; cbn [fst]; [|reflexivity].
    unfold uniform_build. rewrite Hs. reflexivity.
  - rewrite weibull_probing by assumption.
    destruct (weibull_probe _ w) as [[arr|e0] w']; cbn [fst]; [|reflexivity].
    unfold weibull_build. rewrite Hs. reflexivity.
Qed.

(** X9: a [dtype] that [np.dtype] refuses is the error of the call, once
    the size is accepted and none of [self], [size], [state], [gpu], the
    names the call of the class binds before the initializer runs, is
    among the keywords; no node is returned and the world is left as it
    was. *)
Theorem refused_dtype_raises rs low high a size chunks gpu kw v (w : World) sz e :
  kw !! "dtype" = Some v ->
  v <> PyNone ->
  np_dtype v = Raise e ->
  RandomState._handle_size (default PyNone size) = Ok sz ->
  kw !! "self" = None /\
  kw !! "size" = None /\ kw !! "state" = None /\ kw !! "gpu" = None ->
  uniform rs low high size chunks gpu kw w = (Raise e, w) /\
  weibull rs a size chunks gpu kw w = (Raise e, w).
Proof.
  intros Hk Hv He Hs Hc.
  assert (is_None v = false) as Hn.
  { destruct (is_None v) eqn:E; [|reflexivity].
    apply is_None_true in E. contradiction. }
  split.
  - rewrite uniform_explicit by congruence. unfold uniform_build.
    rewrite Hs. cbn [mbind result_bind]. unfold TensorUniform.
    destruct (decide _) as [_|Hx]; [|contradiction].
    unfold TensorUniform__init__. rewrite Hk. cbn [from_option id].
    rewrite Hn, He. reflexivity.
  - rewrite weibull_explicit by congruence. unfold weibull_build.
    rewrite Hs. cbn [mbind result_bind]. unfold TensorWeibull.
    destruct (decide _) as [_|Hx]; [|contradiction].
    unfold TensorWeibull__init__. rewrite Hk. cbn [from_option id].
    rewrite Hn, He. reflexivity.
Qed.

(** *** The operand a call builds *)


Lemma probed_keywords (kw : gmap string pyobj) d :
  kw !! "dtype" = None ->
  (forall k, k ∈ bound_names -> kw !! k = None) ->
  (forall k, k ∈ bound_names -> <["dtype" := PyDType d]> kw !! k = None) /\
  dtype_field (default PyNone (<["dtype" := PyDType d]> kw !! "dtype")) (Some d) /\
  delete "dtype" (<["dtype" := PyDType d]> kw) = kw.
Proof.
  intros Hk Hw. split; [|split].
  - intros k Hk'. rewrite lookup_insert_ne; [apply Hw, Hk'|].
    intros E. symmetry in E. exact (bound_names_not_dtype k Hk' E).
  - rewrite lookup_insert_eq. right. split; [discriminate|].
    exists d. split; [apply np_dtype_instance|reflexivity].
  - rewrite delete_insert_eq. apply delete_id, Hk.
Qed.



(** *** Passing a dtype back *)

Lemma dtype_field_to_py f : dtype_field (dtype_to_py f) f.
Proof.
  destruct f as [d|]; [right|left; split; reflexivity].
  split; [discriminate|]. exists d. split; [apply np_dtype_instance|reflexivity].
Qed.

Lemma bound_names_insert_dtype (kw : gmap string pyobj) x :
  (forall k, k ∈ bound_names -> kw !! k = None) ->
  forall k, k ∈ bound_names -> <["dtype" := x]> kw !! k = None.
Proof.
  intros Hw k Hk. rewrite lookup_insert_ne; [apply Hw, Hk|].
  intros E. symmetry in E. exact (bound_names_not_dtype k Hk E).
Qed.

Lemma TensorUniform_dtype_back size st gpu kw op :
  TensorUniform size st gpu kw = Ok op ->
  TensorUniform size st gpu (<["dtype" := dtype_to_py (_dtype op)]> kw) = Ok op.
Proof.
  intros H. pose proof (TensorUniform_bound_names _ _ _ _ _ H) as Hw.
  apply TensorUniform_inv in H as (Hc & Hsz & Hst & Hg & Hkw & _).
  rewrite (TensorUniform_Ok _ _ _ _ (_dtype op)).
  - rewrite delete_insert_eq. destruct op. cbn in *. subst. reflexivity.
  - apply bound_names_insert_dtype, Hw.
  - rewrite lookup_insert_eq. apply dtype_field_to_py.
Qed.

Lemma TensorWeibull_dtype_back size st gpu kw op :
  TensorWeibull size st gpu kw = Ok op ->
  TensorWeibull size st gpu (<["dtype" := dtype_to_py (_dtype op)]> kw) = Ok op.
Proof.
  intros H. pose proof (TensorWeibull_bound_names _ _ _ _ _ H) as Hw.
  apply TensorWeibull_inv in H as (Hc & Hsz & Hst & Hg & Hkw & _).
  rewrite (TensorWeibull_Ok _ _ _ _ (_dtype op)).
  - rewrite delete_insert_eq. destruct op. cbn in *. subst. reflexivity.
  - apply bound_names_insert_dtype, Hw.
  - rewrite lookup_insert_eq. apply dtype_field_to_py.
Qed.

(** X13: the dtype of a returned node's operand, passed back as the
    [dtype] keyword of the same call in the same world, gives the same
    node again: a dtype instance goes through [np.dtype] unchanged and
    [None] stays [None]. *)
Theorem dtype_passed_back_gives_same_node rs low high a size chunks gpu kw (w : World) :
  returns (uniform rs low high size chunks gpu kw w) (fun node _ =>
    (uniform rs low high size chunks gpu
       (<["dtype" := dtype_to_py (_dtype (node_op node))]> kw) w).1 = Ok node) /\
  returns (weibull rs a size chunks gpu kw w) (fun node _ =>
    (weibull rs a size chunks gpu
       (<["dtype" := dtype_to_py (_dtype (node_op node))]> kw) w).1 = Ok node).
Proof.
  split.
  - from_returns uniform_build_of_call. intros node w' (kw' & Hkw' & Hb).
    rewrite uniform_explicit by (rewrite lookup_insert_eq; discriminate).
    cbn [fst].
    pose proof (uniform_build_inv _ _ _ _ _ _ _ _ Hb) as (sz & Hs & Hop & Hn).
    apply TensorUniform_dtype_back in Hop.
    assert (<["dtype" := dtype_to_py (_dtype (node_op node))]> kw' =
            <["dtype" := dtype_to_py (_dtype (node_op node))]> kw) as E
      by (destruct Hkw' as [->|(d & _ & ->)];
          [reflexivity|apply insert_insert_eq]).
    rewrite E in Hop. unfold uniform_build. rewrite Hs. cbn [mbind result_bind].
    rewrite Hop. exact Hn.
  - from_returns weibull_build_of_call. intros node w' (kw' & Hkw' & Hb).
    rewrite weibull_explicit by (rewrite lookup_insert_eq; discriminate).
    cbn [fst].
    pose proof (weibull_build_inv _ _ _ _ _ _ _ Hb) as (sz & Hs & Hop & Hn).
    apply TensorWeibull_dtype_back in Hop.
    assert (<["dtype" := dtype_to_py (_dtype (node_op node))]> kw' =
            <["dtype" := dtype_to_py (_dtype (node_op node))]> kw) as E
      by (destruct Hkw' as [->|(d & _ & ->)];
          [reflexivity|apply insert_insert_eq]).
    rewrite E in Hop. unfold weibull_build. rewrite Hs. cbn [mbind result_bind].
    rewrite Hop. exact Hn.
Qed.

End Further.

(** * The further properties on the reference NumPy *)

Lemma probing_call_makes_one_generator_witness :
  (∅ : gmap string pyobj) !! "dtype" = None /\
  one_probe world0 (uniform rs0 None None None None None ∅ world0).2 /\
  one_probe world0 (weibull rs0 (PyFloat 5) None None None ∅ world0).2.
Proof.
  split; [reflexivity|].
  apply (@probing_call_makes_one_generator numpy_ref rs0 None None (PyFloat 5)
           None None None ∅ world0).
  reflexivity.
Defined.

Lemma successive_probes_use_distinct_generators_witness :
  (∅ : gmap string pyobj) !! "dtype" = None /\
  let w1 := (uniform rs0 None None None None None ∅ world0).2 in
  let w2 := (weibull rs0 (PyFloat 5) None None None ∅ w1).2 in
  let l := fresh (dom (w_gens world0)) in
  is_Some (w_gens w1 !! l) /\
  fresh (dom (w_gens w1)) <> l /\
  w_gens w2 !! l = w_gens w1 !! l /\
  w_reads w2 = S (S (w_reads world0)).
Proof.
  assert ((∅ : gmap string pyobj) !! "dtype" = None) as Hk by reflexivity.
  split; [exact Hk|].
  exact (@successive_probes_use_distinct_generators numpy_ref rs0 None None
           None None None ∅ rs0 (PyFloat 5) None None None ∅ world0 Hk Hk).
Defined.

(** The two generators of the two probes, and the caller's. *)
Example successive_probes_generators :
  map_to_list (w_gens (weibull rs0 (PyFloat 5) None None None ∅ world1).2)
  = [(3%positive, 10%N); (2%positive, 3%N); (1%positive, 42%N)].
Proof. vm_compute. reflexivity. Qed.

Lemma probing_is_explicit_with_probed_dtype_witness :
  (∅ : gmap string pyobj) !! "dtype" = None /\
  handle_array (PyFloat 5) = Ok five_array /\
  NumPyRef.uniform (w_urandom world0 (w_reads world0)) five_array five_array [0]
    = Ok (empty_f8, 3%N) /\
  NumPyRef.weibull (w_urandom world0 (w_reads world0)) five_array [0]
    = Ok (empty_f8, 3%N) /\
  (uniform rs0 (Some (PyFloat 5)) (Some (PyFloat 5)) (Some (PyInt 10))
           None None ∅ world0).1 =
  (uniform rs0 (Some (PyFloat 5)) (Some (PyFloat 5)) (Some (PyInt 10))
           None None (<["dtype" := PyDType Float64]> ∅) world0).1 /\
  (weibull rs0 (PyFloat 5) (Some (PyInt 10)) None None ∅ world0).1 =
  (weibull rs0 (PyFloat 5) (Some (PyInt 10)) None None
           (<["dtype" := PyDType Float64]> ∅) world0).1.
Proof.
  assert ((∅ : gmap string pyobj) !! "dtype" = None) as Hk by reflexivity.
  assert (handle_array (PyFloat 5) = Ok five_array) as Ha by reflexivity.
  assert (NumPyRef.uniform (w_urandom world0 (w_reads world0))
            five_array five_array [0] = Ok (empty_f8, 3%N)) as Hu
    by (vm_compute; reflexivity).
  assert (NumPyRef.weibull (w_urandom world0 (w_reads world0)) five_array [0]
          = Ok (empty_f8, 3%N)) as Hw by (vm_compute; reflexivity).
  split; [exact Hk|]. split; [exact Ha|]. split; [exact Hu|]. split; [exact Hw|].
  exact (@probing_is_explicit_with_probed_dtype numpy_ref rs0
           (Some (PyFloat 5)) (Some (PyFloat 5)) (PyFloat 5) (Some (PyInt 10))
           None None ∅ world0 five_array five_array empty_f8 3%N
           five_array empty_f8 3%N Hk Ha Ha Hu Ha Hw).
Defined.

Lemma probed_dtype_ignores_other_arguments_witness :
  (∅ : gmap string pyobj) !! "dtype" = None /\
  ({[ "tag" := PyStr "x" ]} : gmap string pyobj) !! "dtype" = None /\
  returns (uniform rs0 None None (Some (PyInt 10)) None None ∅ world0)
    (fun n1 w1 =>
       returns (uniform (RandomState.mk 9) None None None (Some (PyInt 4))
                  (Some (PyBool true)) {[ "tag" := PyStr "x" ]} world0)
         (fun n2 w2 => _dtype (node_op n1) = _dtype (node_op n2) /\ w1 = w2)) /\
  returns (weibull rs0 (PyFloat 5) (Some (PyInt 10)) None None ∅ world0)
    (fun n1 w1 =>
       returns (weibull (RandomState.mk 9) (PyFloat 5) None (Some (PyInt 4))
                  (Some (PyBool true)) {[ "tag" := PyStr "x" ]} world0)
         (fun n2 w2 => _dtype (node_op n1) = _dtype (node_op n2) /\ w1 = w2)).
Proof.
  assert ((∅ : gmap string pyobj) !! "dtype" = None) as H1 by reflexivity.
  assert (({[ "tag" := PyStr "x" ]} : gmap string pyobj) !! "dtype" = None)
    as H2 by reflexivity.
  split; [exact H1|]. split; [exact H2|].
  exact (@probed_dtype_ignores_other_arguments numpy_ref rs0 (RandomState.mk 9)
           None None (PyFloat 5) (Some (PyInt 10)) None None (Some (PyInt 4))
           None (Some (PyBool true)) ∅ {[ "tag" := PyStr "x" ]} world0 H1 H2).
Defined.

Example tagged_call_returns :
  dtype_of_call (uniform (RandomState.mk 9) None None None (Some (PyInt 4))
                   (Some (PyBool true)) {[ "tag" := PyStr "x" ]} world0)
  = Ok (Some Float64).
Proof. vm_compute. reflexivity. Qed.

Lemma written_out_keyword_never_returns_witness :
  "state" ∈ written_out /\
  is_Some (kw_state !! "state") /\
  returns (uniform rs0 None None None None None kw_state world0)
    (fun _ _ => False) /\
  returns (weibull rs0 (PyFloat 5) None None None kw_state world0)
    (fun _ _ => False).
Proof.
  assert ("state" ∈ written_out) as Hk by (unfold written_out; repeat constructor).
  assert (is_Some (kw_state !! "state")) as Hs by (vm_compute; eauto).
  split; [exact Hk|]. split; [exact Hs|].
  exact (@written_out_keyword_never_returns numpy_ref rs0 None None (PyFloat 5)
           None None None kw_state "state" world0 Hk Hs).
Defined.

(** What the call with a [state] of the caller's own raises. *)
Example state_keyword_raises :
  (uniform rs0 None None None None None kw_state world0).1 = Raise TypeError.
Proof. vm_compute. reflexivity. Qed.

(** The operand of [uniform(rs, dtype='float32', tag='x')] holds [tag]. *)
Example tag_reaches_operand :
  (fun node => map_to_list (op_kw (node_op node)))
    <$> (uniform rs0 None None None None None kw_tag world0).1
  = Ok [("tag", PyStr "x")].
Proof. vm_compute. reflexivity. Qed.

Lemma probe_failure_surfaces_first_witness :
  (∅ : gmap string pyobj) !! "dtype" = None /\
  handle_array (PyStr "low") = Raise TypeConversionError /\
  NumPyRef.weibull (w_urandom world0 (w_reads world0)) minus_one_array [0]
    = Raise ParameterDomainError /\
  (uniform rs0 (Some (PyStr "low")) None (Some size_minus_3) None None ∅ world0).1
    = Raise TypeConversionError /\
  (weibull rs0 (PyFloat (-1)) (Some size_minus_3) None None ∅ world0).1
    = Raise ParameterDomainError.
Proof.
  assert ((∅ : gmap string pyobj) !! "dtype" = None) as Hk by reflexivity.
  split; [exact Hk|]. split; [reflexivity|]. split; [reflexivity|].
  apply (@probe_failure_surfaces_first numpy_ref rs0 (Some (PyStr "low")) None
           (PyFloat (-1)) (Some size_minus_3) None None ∅ world0
           TypeConversionError ParameterDomainError Hk); reflexivity.
Defined.

Lemma invalid_size_raises_witness :
  RandomState._handle_size size_minus_3 = Raise InvalidShapeError /\
  uniform rs0 None None (Some size_minus_3) None None kw_quaternion world0
    = (Raise InvalidShapeError, world0) /\
  weibull rs0 (PyFloat 5) (Some size_minus_3) None None kw_quaternion world0
    = (Raise InvalidShapeError, world0).
Proof.
  assert (RandomState._handle_size size_minus_3 = Raise InvalidShapeError)
    as Hs by reflexivity.
  split; [exact Hs|].
  exact (@invalid_size_raises numpy_ref rs0 None None (PyFloat 5)
           (Some size_minus_3) None None kw_quaternion world0
           InvalidShapeError Hs).
Defined.

Lemma refused_dtype_raises_witness :
  kw_quaternion !! "dtype" = Some (PyStr "quaternion") /\
  NumPyRef.dtype_of (PyStr "quaternion") = Raise TypeError /\
  uniform rs0 None None None None None kw_quaternion world0
    = (Raise TypeError, world0) /\
  weibull rs0 (PyFloat 5) None None None kw_quaternion world0
    = (Raise TypeError, world0).
Proof.
  assert (kw_quaternion !! "dtype" = Some (PyStr "quaternion")) as Hk
    by reflexivity.
  assert (PyStr "quaternion" <> PyNone) as Hv by discriminate.
  assert (NumPyRef.dtype_of (PyStr "quaternion") = Raise TypeError) as He
    by reflexivity.
  assert (RandomState._handle_size PyNone = Ok None) as Hs by reflexivity.
  assert (kw_quaternion !! "self" = None /\
          kw_quaternion !! "size" = None /\ kw_quaternion !! "state" = None /\
          kw_quaternion !! "gpu" = None) as Hc by (repeat split).
  split; [exact Hk|]. split; [exact He|].
  exact (@refused_dtype_raises numpy_ref rs0 None None (PyFloat 5) None None
           None kw_quaternion (PyStr "quaternion") world0 None TypeError
           Hk Hv He Hs Hc).
Defined.

Lemma kw_tag_bound_names k : k ∈ bound_names -> kw_tag !! k = None.
Proof.
  unfold bound_names, written_out. intros Hk.
  repeat (apply elem_of_cons in Hk as [->|Hk]; [reflexivity|]).
  apply elem_of_nil in Hk. contradiction.
Defined.

Lemma empty_bound_names k :
  k ∈ bound_names -> (∅ : gmap string pyobj) !! k = None.
Proof. intros _. apply lookup_empty. Defined.




(** The dtype of [uniform(rs, dtype='float32', tag='x')], passed back. *)
Example dtype_passed_back :
  (uniform rs0 None None None None None
     (<["dtype" := PyDType Float32]> kw_tag) world0).1 =
  (uniform rs0 None None None None None kw_tag world0).1 /\
  dtype_of_call (uniform rs0 None None None None None kw_tag world0)
  = Ok (Some Float32).
Proof. split; vm_compute; reflexivity. Qed.

(** * The dtype that is given, the shapes that do not broadcast, and
      operands built twice *)

Section Built.
Context `{np : NumPy}.

(** C9: with a [dtype] keyword other than [None], the call leaves the world
    as it found it (no generator is made, none is drawn from, no entropy is
    read: no probe); the dtype of the operand of the node returned is
    [np.dtype] of the value given; and when [np.dtype] accepts the value,
    the size is accepted and no keyword has a bound name, the operand is
    built, with [np.dtype] of the value as its dtype, and the call is the
    node constructor on that operand. *)
Theorem explicit_dtype_is_canonicalized
    rs low high a size chunks gpu kw v d sz (w : World) :
  kw !! "dtype" = Some v ->
  v <> PyNone ->
  np_dtype v = Ok d ->
  RandomState._handle_size (default PyNone size) = Ok sz ->
  (forall k, k ∈ bound_names -> kw !! k = None) ->
  (TensorUniform sz (RandomState._state rs) (default PyNone gpu) kw =
     Ok (mk_Operand Uniform sz (RandomState._state rs) (Some d)
                    (gpu_flag (default PyNone gpu)) (delete "dtype" kw)) /\
   uniform rs low high size chunks gpu kw w =
     (new_tensor
        (mk_Operand Uniform sz (RandomState._state rs) (Some d)
                    (gpu_flag (default PyNone gpu)) (delete "dtype" kw))
        [default (PyFloat 0) low; default (PyFloat 1) high] PyNone
        (default PyNone chunks), w) /\
   returns (uniform rs low high size chunks gpu kw w) (fun node w' =>
     w' = w /\ _dtype (node_op node) = Some d)) /\
  (TensorWeibull sz (RandomState._state rs) (default PyNone gpu) kw =
     Ok (mk_Operand Weibull sz (RandomState._state rs) (Some d)
                    (gpu_flag (default PyNone gpu)) (delete "dtype" kw)) /\
   weibull rs a size chunks gpu kw w =
     (new_tensor
        (mk_Operand Weibull sz (RandomState._state rs) (Some d)
                    (gpu_flag (default PyNone gpu)) (delete "dtype" kw))
        [a] PyNone (default PyNone chunks), w) /\
   returns (weibull rs a size chunks gpu kw w) (fun node w' =>
     w' = w /\ _dtype (node_op node) = Some d)) /\
  (forall rs0 low0 high0 a0 size0 chunks0 gpu0 kw0 v0,
     kw0 !! "dtype" = Some v0 ->
     v0 <> PyNone ->
     ((uniform rs0 low0 high0 size0 chunks0 gpu0 kw0 w).2 = w /\
      returns (uniform rs0 low0 high0 size0 chunks0 gpu0 kw0 w) (fun node _ =>
        exists d0, np_dtype v0 = Ok d0 /\ _dtype (node_op node) = Some d0)) /\
     ((weibull rs0 a0 size0 chunks0 gpu0 kw0 w).2 = w /\
      returns (weibull rs0 a0 size0 chunks0 gpu0 kw0 w) (fun node _ =>
        exists d0, np_dtype v0 = Ok d0 /\ _dtype (node_op node) = Some d0))).
Proof.
  intros Hk Hv Hd Hs Hw.
  assert (forall rs0 low0 high0 a0 size0 chunks0 gpu0 kw0 v0,
     kw0 !! "dtype" = Some v0 ->
     v0 <> PyNone ->
     ((uniform rs0 low0 high0 size0 chunks0 gpu0 kw0 w).2 = w /\
      returns (uniform rs0 low0 high0 size0 chunks0 gpu0 kw0 w) (fun node _ =>
        exists d0, np_dtype v0 = Ok d0 /\ _dtype (node_op node) = Some d0)) /\
     ((weibull rs0 a0 size0 chunks0 gpu0 kw0 w).2 = w /\
      returns (weibull rs0 a0 size0 chunks0 gpu0 kw0 w) (fun node _ =>
        exists d0, np_dtype v0 = Ok d0 /\ _dtype (node_op node) = Some d0)))
    as Hgen.
  { intros rs0 low0 high0 a0 size0 chunks0 gpu0 kw0 v0 Hk0 Hv0. split; split.
    - rewrite uniform_explicit by congruence. reflexivity.
    - eapply returns_impl; [|apply uniform_returns]. cbn beta. rewrite Hk0.
      intros node w' (_ & _ & _ & _ & [[E _]|(_ & H)]); [contradiction|exact H].
    - rewrite weibull_explicit by congruence. reflexivity.
    - eapply returns_impl; [|apply weibull_returns]. cbn beta. rewrite Hk0.
      intros node w' (_ & _ & _ & _ & [[E _]|(_ & H)]); [contradiction|exact H]. }
  assert (dtype_field (default PyNone (kw !! "dtype")) (Some d)) as Hf.
  { rewrite Hk. right. split; [exact Hv|]. exists d. split; [exact Hd|reflexivity]. }
  pose proof (TensorUniform_Ok sz (RandomState._state rs) (default PyNone gpu)
                kw (Some d) Hw Hf) as Hu.
  pose proof (TensorWeibull_Ok sz (RandomState._state rs) (default PyNone gpu)
                kw (Some d) Hw Hf) as Hb.
  split; [|split; [|exact Hgen]]; (split; [assumption|]).
  - assert (uniform rs low high size chunks gpu kw w =
            (new_tensor
               (mk_Operand Uniform sz (RandomState._state rs) (Some d)
                  (gpu_flag (default PyNone gpu)) (delete "dtype" kw))
               [default (PyFloat 0) low; default (PyFloat 1) high] PyNone
               (default PyNone chunks), w)) as E.
    { rewrite uniform_explicit by congruence. unfold uniform_build.
      rewrite Hs. cbn [mbind result_bind]. rewrite Hu. reflexivity. }
    split; [exact E|]. rewrite E. unfold returns.
    destruct (new_tensor _ _ _ _) as [node|e] eqn:En; [|exact I].
    apply new_tensor_inv in En as (-> & _). split; reflexivity.
  - assert (weibull rs a size chunks gpu kw w =
            (new_tensor
               (mk_Operand Weibull sz (RandomState._state rs) (Some d)
                  (gpu_flag (default PyNone gpu)) (delete "dtype" kw))
               [a] PyNone (default PyNone chunks), w)) as E.
    { rewrite weibull_explicit by congruence. unfold weibull_build.
      rewrite Hs. cbn [mbind result_bind]. rewrite Hb. reflexivity. }
    split; [exact E|]. rewrite E. unfold returns.
    destruct (new_tensor _ _ _ _) as [node|e] eqn:En; [|exact I].
    apply new_tensor_inv in En as (-> & _). split; reflexivity.
Qed.

(** *** Operands built twice *)

(** Every field of the operand of a node that [TensorUniform(...)(...)]
    returns comes from the argument of that name. *)
Lemma construct_uniform_fields sz st dt g kwc lo hi ch n :
  construct_uniform sz st dt g kwc lo hi ch = Ok n ->
  op_class (node_op n) = Uniform /\
  _size (node_op n) = sz /\
  dtype_field dt (_dtype (node_op n)) /\
  _gpu (node_op n) = gpu_flag g /\
  node_params n = bind_params ["_low"; "_high"] [lo; hi] 0 /\
  _state (node_op n) = st /\
  op_kw (node_op n) = kwc /\ node_chunks n = ch.
Proof.
  unfold construct_uniform, TensorUniform__init__, TensorUniform__call__.
  intros H.
  destruct (if is_None dt then _ else _) as [f|e] eqn:Ef; cbn in H; [|discriminate].
  destruct (Operand__init__ _ _ _ _ _ _) as [op|e] eqn:Eo; cbn in H; [|discriminate].
  apply Operand__init__inv in Eo. apply canonical_dtype_inv in Ef.
  apply new_tensor_inv in H as (Hop & Hp & _ & Hc & _).
  rewrite Hop, Hp, Hc, Eo. cbn. repeat split; try reflexivity. exact Ef.
Qed.

Lemma construct_weibull_fields sz st dt g kwc p ch n :
  construct_weibull sz st dt g kwc p ch = Ok n ->
  op_class (node_op n) = Weibull /\
  _size (node_op n) = sz /\
  dtype_field dt (_dtype (node_op n)) /\
  _gpu (node_op n) = gpu_flag g /\
  node_params n = bind_params ["_a"] [p] 0 /\
  _state (node_op n) = st /\
  op_kw (node_op n) = kwc /\ node_chunks n = ch.
Proof.
  unfold construct_weibull, TensorWeibull__init__, TensorWeibull__call__.
  intros H.
  destruct (if is_None dt then _ else _) as [f|e] eqn:Ef; cbn in H; [|discriminate].
  destruct (Operand__init__ _ _ _ _ _ _) as [op|e] eqn:Eo; cbn in H; [|discriminate].
  apply Operand__init__inv in Eo. apply canonical_dtype_inv in Ef.
  apply new_tensor_inv in H as (Hop & Hp & _ & Hc & _).
  rewrite Hop, Hp, Hc, Eo. cbn. repeat split; try reflexivity. exact Ef.
Qed.

(** Two nodes built in a row are two objects, each holding its node. *)
Lemma two_objects_Ok n1 n2 (h : gmap loc GraphNode) :
  exists l1 l2 h2,
    two_objects (Ok n1) (Ok n2) h = (Ok l1, Ok l2, h2) /\
    l1 = fresh (dom h) /\ l1 <> l2 /\
    h2 !! l1 = Some n1 /\ h2 !! l2 = Some n2.
Proof.
  unfold two_objects, new_object.
  set (l1 := fresh (dom h)). set (h1 := <[l1 := n1]> h).
  set (l2 := fresh (dom h1)).
  assert (l1 <> l2) as Hne.
  { intros E. apply (is_fresh (dom h1)). fold l2. rewrite <- E.
    subst h1. rewrite dom_insert_L. apply elem_of_union_l, elem_of_singleton.
    reflexivity. }
  exists l1, l2, (<[l2 := n2]> h1). repeat split; try assumption.
  - rewrite lookup_insert_ne by congruence. subst h1. apply lookup_insert_eq.
  - apply lookup_insert_eq.
Qed.

Lemma built_twice_Ok n : built_twice (Ok n).
Proof.
  intros h. destruct (two_objects_Ok n n h) as (l1 & l2 & h2 & E & _ & Hne & H1 & H2).
  exists l1, l2, h2, n, n. repeat split; assumption || reflexivity.
Qed.

Lemma either_order_Ok nA nB : either_order (Ok nA) (Ok nB).
Proof.
  intros h.
  destruct (two_objects_Ok nA nB h) as (lA & lB & h2 & E & HlA & _ & HA & _).
  destruct (two_objects_Ok nB nA h) as (lB' & lA' & h2' & E' & HlB' & Hne & _ & HA').
  exists lA, lB, h2, lB', lA', h2', nA, nA.
  repeat split; try assumption || reflexivity. congruence.
Qed.


(** *** Shapes that do not broadcast *)

Lemma broadcast_rev_error s t e :
  broadcast_rev s t = Raise e -> e = BroadcastShapeError.
Proof.
  revert t. induction s as [|x s IH]; intros [|y t] H; cbn in H; try discriminate.
  destruct (broadcast_rev s t) as [r|e'] eqn:Er; cbn in H.
  - repeat case_decide; congruence.
  - injection H as <-. eapply IH, Er.
Qed.

Lemma broadcast_rev_nil_r s : broadcast_rev s [] = Ok s.
Proof. destruct s; reflexivity. Qed.

Lemma broadcast_rev_Ok_nil s t : broadcast_rev s t = Ok [] -> s = [] /\ t = [].
Proof.
  destruct s as [|x s], t as [|y t]; cbn; intros H; try (injection H as ->);
    try (split; reflexivity); try discriminate.
  destruct (broadcast_rev s t) as [r|e]; cbn in H; [|discriminate].
  repeat case_decide; discriminate.
Qed.

(** A one-dimensional result comes from shapes of at most one dimension. *)
Lemma broadcast_rev_Ok_one s t z :
  broadcast_rev s t = Ok [z] -> length s <= 1 /\ length t <= 1.
Proof.
  destruct s as [|x s], t as [|y t]; cbn; intros H.
  - lia.
  - injection H as ? ?. subst. cbn. lia.
  - injection H as ? ?. subst. cbn. lia.
  - destruct (broadcast_rev s t) as [r|e] eqn:Er; cbn in H; [|discriminate].
    assert (r = []) as -> by (repeat case_decide; congruence).
    apply broadcast_rev_Ok_nil in Er as [-> ->]. cbn. lia.
Qed.

Lemma broadcast2_error s t e : broadcast2 s t = Raise e -> e = BroadcastShapeError.
Proof.
  unfold broadcast2. destruct (broadcast_rev _ _) as [r|e'] eqn:Er; [discriminate|].
  intros [= <-]. eapply broadcast_rev_error, Er.
Qed.

Lemma broadcast2_nil_r s : broadcast2 s [] = Ok s.
Proof.
  unfold broadcast2. cbn [rev]. rewrite broadcast_rev_nil_r. cbn.
  rewrite rev_involutive. reflexivity.
Qed.

Lemma broadcast2_nil_l s : broadcast2 [] s = Ok s.
Proof. unfold broadcast2. cbn. rewrite rev_involutive. reflexivity. Qed.

(** Two shapes that do not broadcast with each other do not both
    broadcast to the shape [(0,)] of the probe. *)
Lemma broadcast_rev_zero_probe a b r :
  broadcast_rev a b = Raise BroadcastShapeError ->
  broadcast_rev b [0] = Ok r ->
  broadcast_rev a r = Ok [0] ->
  False.
Proof.
  intros Hab Hb Ha. pose proof (broadcast_rev_Ok_one _ _ _ Ha) as [La Lr].
  destruct a as [|a0 [|a1 a']]; cbn in La; [discriminate| |lia].
  destruct b as [|b0 b']; [discriminate|].
  cbn in Hb. rewrite broadcast_rev_nil_r in Hb. cbn in Hb.
  destruct b' as [|b1 b'].
  - cbn in Hab.
    repeat case_decide; try discriminate; injection Hb as <-; cbn in Ha;
      repeat case_decide; try discriminate; congruence.
  - repeat case_decide; try discriminate; injection Hb as <-; cbn in Lr; lia.
Qed.

Lemma check_size_mismatch s1 s2 :
  broadcast2 s1 s2 = Raise BroadcastShapeError ->
  NumPyRef.check_size [s1; s2] [0] = Raise BroadcastShapeError.
Proof.
  intros H. unfold NumPyRef.check_size. cbn [app broadcast_shape].
  cbn [mbind result_bind]. rewrite broadcast2_nil_r. cbn [mbind result_bind].
  destruct (broadcast2 s2 [0]) as [r|e] eqn:E2; cbn [mbind result_bind].
  - destruct (broadcast2 s1 r) as [s|e] eqn:E1.
    + destruct (decide (s = [0])) as [->|_]; [exfalso|reflexivity].
      unfold broadcast2 in H, E1, E2.
      destruct (broadcast_rev (rev s1) (rev s2)) as [?|e0] eqn:Hab; [discriminate|].
      apply broadcast_rev_error in Hab as Hx. subst e0.
      destruct (broadcast_rev (rev s2) (rev [0])) as [r'|?] eqn:Hb; [|discriminate].
      injection E2 as <-. rewrite rev_involutive in E1.
      destruct (broadcast_rev (rev s1) r') as [q|?] eqn:Ha; [|discriminate].
      injection E1 as E1. assert (q = [0]) as ->.
      { rewrite <- (rev_involutive q), E1. reflexivity. }
      exact (broadcast_rev_zero_probe _ _ _ Hab Hb Ha).
    + apply broadcast2_error in E1. subst e. reflexivity.
  - apply broadcast2_error in E2. subst e. reflexivity.
Qed.

(** The shape the normalizer keeps is the shape the node constructor
    reads; a parameter with a dimension is an array-like. *)
Lemma handle_array_declared_shape v arr :
  handle_array v = Ok arr ->
  declared_shape v = Ok (nd_shape arr) /\
  (nd_shape arr <> [] -> is_array_like v = true).
Proof.
  intros H. destruct v as [| | | | | |xs|];
    try (cbn in H; discriminate);
    try (cbn in H; injection H as <-; cbn; split; [reflexivity|congruence]).
  unfold handle_array in H. unfold declared_shape.
  destruct (seq_shape (PySeq xs)) as [s|]; [|discriminate].
  destruct (leaves (PySeq xs)) as [l|]; [|discriminate].
  injection H as <-. cbn [nd_shape is_array_like].
  split; [reflexivity|intros _; reflexivity].
Qed.

(** The node constructor on two parameters whose shapes do not broadcast,
    for an operand whose shape is deferred. *)
Lemma TensorUniform__call__incompatible op low high lo hi chunks :
  handle_array low = Ok lo ->
  handle_array high = Ok hi ->
  broadcast2 (nd_shape lo) (nd_shape hi) = Raise BroadcastShapeError ->
  _size op = None ->
  TensorUniform__call__ op low high chunks = Raise BroadcastShapeError.
Proof.
  intros Hlo Hhi Hb Hs.
  apply handle_array_declared_shape in Hlo as [Dlo Alo].
  apply handle_array_declared_shape in Hhi as [Dhi Ahi].
  assert (nd_shape lo <> []) as Nlo
    by (intros E; rewrite E, broadcast2_nil_l in Hb; discriminate).
  assert (nd_shape hi <> []) as Nhi
    by (intros E; rewrite E, broadcast2_nil_r in Hb; discriminate).
  unfold TensorUniform__call__, new_tensor. rewrite Hs.
  cbn [List.filter]. rewrite (Alo Nlo), (Ahi Nhi).
  cbn [mapM mbind mret result_bind result_ret]. rewrite Dlo, Dhi.
  cbn [mbind mret result_bind result_ret broadcast_shape].
  rewrite broadcast2_nil_r. cbn [mbind result_bind]. rewrite Hb. reflexivity.
Qed.

(** A call without a [dtype] keyword and without a size, on two
    parameters whose shapes do not broadcast: what it raises, by what the
    probe did. *)
Lemma uniform_incompatible rs low high lo hi chunks gpu (w : World) :
  handle_array low = Ok lo ->
  handle_array high = Ok hi ->
  broadcast2 (nd_shape lo) (nd_shape hi) = Raise BroadcastShapeError ->
  uniform rs (Some low) (Some high) None chunks gpu ∅ w =
  match uniform_probe low high w with
  | (Ok _, w') => (Raise BroadcastShapeError, w')
  | (Raise e, w') => (Raise e, w')
  end.
Proof.
  intros Hlo Hhi Hb. rewrite uniform_probing by apply lookup_empty.
  cbn [from_option id].
  destruct (uniform_probe low high w) as [[arr|e] w']; [|reflexivity].
  rewrite (uniform_build_probed _ _ _ _ _ _ _ None) by reflexivity.
  rewrite (TensorUniform__call__incompatible _ _ _ _ _ _ Hlo Hhi Hb) by reflexivity.
  reflexivity.
Qed.

(** The same call with a dtype that resolves: no probe, and the node
    constructor refuses the shapes. *)
Lemma uniform_incompatible_explicit rs low high lo hi chunks gpu kw v d (w : World) :
  handle_array low = Ok lo ->
  handle_array high = Ok hi ->
  broadcast2 (nd_shape lo) (nd_shape hi) = Raise BroadcastShapeError ->
  kw !! "dtype" = Some v ->
  v <> PyNone ->
  np_dtype v = Ok d ->
  (forall k, k ∈ bound_names -> kw !! k = None) ->
  uniform rs (Some low) (Some high) None chunks gpu kw w =
  (Raise BroadcastShapeError, w).
Proof.
  intros Hlo Hhi Hb Hk Hv Hd Hw.
  rewrite uniform_explicit by congruence. unfold uniform_build.
  cbn [from_option id RandomState._handle_size mbind result_bind].
  rewrite (TensorUniform_Ok _ _ _ _ (Some d)); [|exact Hw|].
  - cbn [mbind result_bind].
    rewrite (TensorUniform__call__incompatible _ _ _ _ _ _ Hlo Hhi Hb) by reflexivity.
    reflexivity.
  - rewrite Hk. right. split; [exact Hv|]. exists d. split; [exact Hd|reflexivity].
Qed.

End Built.

(** On the reference NumPy the probe itself refuses two parameters whose
    shapes do not broadcast. *)
Lemma uniform_probe_incompatible low high lo hi (w : @World numpy_ref) :
  handle_array low = Ok lo ->
  handle_array high = Ok hi ->
  broadcast2 (nd_shape lo) (nd_shape hi) = Raise BroadcastShapeError ->
  (uniform_probe low high w).1 = Raise BroadcastShapeError.
Proof.
  intros Hlo Hhi Hb. rewrite uniform_probe_result, Hlo, Hhi.
  cbn [mbind result_bind np_uniform numpy_ref]. unfold NumPyRef.uniform.
  rewrite (check_size_mismatch _ _ Hb). reflexivity.
Qed.



(** Shapes that do broadcast are accepted by the node constructor, and
    give the node their broadcast shape: [[0,0]] against [[1,1]] and
    against [[[1],[1],[1]]], with a dtype given. *)
Example uniform_shapes_that_broadcast :
  (fun node => node_shape node)
    <$> (uniform rs0 (Some low_2) (Some (PySeq [PyInt 1; PyInt 1]))
           None None None kw_f8 world0).1 = Ok [2] /\
  (fun node => node_shape node)
    <$> (uniform rs0 (Some low_2)
           (Some (PySeq [PySeq [PyInt 1]; PySeq [PyInt 1]; PySeq [PyInt 1]]))
           None None None kw_f8 world0).1 = Ok [3; 2].
Proof. split; vm_compute; reflexivity. Qed.

Lemma kw_f8_bound_names k : k ∈ bound_names -> kw_f8 !! k = None.
Proof.
  unfold bound_names, written_out. intros Hk.
  repeat (apply elem_of_cons in Hk as [->|Hk]; [reflexivity|]).
  apply elem_of_nil in Hk. contradiction.
Defined.

Lemma explicit_dtype_is_canonicalized_witness :
  kw_f8 !! "dtype" = Some (PyStr "float64") /\
  PyStr "float64" <> PyNone /\
  NumPyRef.dtype_of (PyStr "float64") = Ok Float64 /\
  RandomState._handle_size (PyInt 10) = Ok (Some [10]) /\
  (forall k, k ∈ bound_names -> kw_f8 !! k = None) /\
  @TensorUniform numpy_ref (Some [10]) 1%positive PyNone kw_f8 =
    Ok (mk_Operand Uniform (Some [10]) 1%positive (Some Float64) (PyBool false)
                   (delete "dtype" kw_f8)) /\
  uniform rs0 (Some (PyFloat 5)) (Some (PyFloat 5)) (Some (PyInt 10))
          None None kw_f8 world0 =
    (new_tensor
       (mk_Operand Uniform (Some [10]) 1%positive (Some Float64) (PyBool false)
                   (delete "dtype" kw_f8))
       [PyFloat 5; PyFloat 5] PyNone PyNone, world0) /\
  returns (uniform rs0 (Some (PyFloat 5)) (Some (PyFloat 5)) (Some (PyInt 10))
             None None kw_f8 world0)
    (fun node w' => w' = world0 /\ _dtype (node_op node) = Some Float64).
Proof.
  assert (kw_f8 !! "dtype" = Some (PyStr "float64")) as Hk by reflexivity.
  assert (PyStr "float64" <> PyNone) as Hv by discriminate.
  assert (NumPyRef.dtype_of (PyStr "float64") = Ok Float64) as Hd by reflexivity.
  assert (RandomState._handle_size (PyInt 10) = Ok (Some [10])) as Hs
    by reflexivity.
  split; [exact Hk|]. split; [exact Hv|]. split; [exact Hd|]. split; [exact Hs|].
  split; [exact kw_f8_bound_names|].
  exact (proj1 (@explicit_dtype_is_canonicalized numpy_ref rs0
                  (Some (PyFloat 5)) (Some (PyFloat 5)) (PyFloat 5)
                  (Some (PyInt 10)) None None kw_f8 (PyStr "float64") Float64
                  (Some [10]) world0 Hk Hv Hd Hs kw_f8_bound_names)).
Defined.

(** The node the call of the witness returns. *)
Example explicit_dtype_call_returns :
  dtype_of_call (uniform rs0 (Some (PyFloat 5)) (Some (PyFloat 5))
                   (Some (PyInt 10)) None None kw_f8 world0)
  = Ok (Some Float64).
Proof. vm_compute. reflexivity. Qed.

